(** * vision-guard: image validation, quality analysis and background removal

    A shallow embedding of the request-handling core of the repository:
    - [main.py]: the Flask API ([allowed_file], [is_valid_image],
      [analyze_image], [remove_bg]);
    - [app.py]: the Streamlit UI ([is_valid_image_extension],
      [is_valid_image_file], [show_background_removal]);
    - [models/image_analyzer.py]: [resolution_score], [is_blurry],
      [blur_score], [analyze_image_quality];
    - [models/background_remover.py]: [remove_background].

    Python exceptions are modelled by a result type, the file system and
    the instrumentation needed for temporal statements by an explicit
    world threaded through a state-and-exception monad.  The third-party
    capabilities (PIL decoding, OpenCV decoding and Laplacian variance,
    rembg segmentation, werkzeug's [secure_filename], the iteration order
    of a Python set) are the fields of a record [externals] that the code
    is parametrised by. *)

From Stdlib Require Import Ascii String QArith Qabs Qminmax Qround Lqa.
From stdpp Require Import gmap strings list fin_maps pretty.

Local Open Scope string_scope.
Local Open Scope list_scope.

(** ** Python strings *)

Module PyStr.

(** [c.lower()] on one character; only A-Z have an ASCII lower-case form. *)
Definition lower_ascii (c : ascii) : ascii :=
  let n := nat_of_ascii c in
  if (65 <=? n)%nat && (n <=? 90)%nat then ascii_of_nat (n + 32) else c.

(** [s.lower()] *)
Fixpoint lower (s : string) : string :=
  match s with
  | EmptyString => EmptyString
  | String c s' => String (lower_ascii c) (lower s')
  end.

(** [c in s] for a one-character needle [c]. *)
Fixpoint contains (c : ascii) (s : string) : bool :=
  match s with
  | EmptyString => false
  | String d s' => if Ascii.eqb d c then true else contains c s'
  end.

(** [s.split(sep)] for a one-character separator: every occurrence cuts. *)
Fixpoint split (sep : ascii) (s : string) : list string :=
  match s with
  | EmptyString => [EmptyString]
  | String c s' =>
      if Ascii.eqb c sep then EmptyString :: split sep s'
      else match split sep s' with
           | f :: fs => String c f :: fs
           | [] => [String c EmptyString]
           end
  end.

(** [s.split(sep, maxsplit)]: at most [maxsplit] cuts, taken from the left. *)
Fixpoint split_max (sep : ascii) (maxsplit : nat) (s : string) {struct s}
  : list string :=
  match maxsplit with
  | O => [s]
  | S m =>
      match s with
      | EmptyString => [EmptyString]
      | String c s' =>
          if Ascii.eqb c sep then EmptyString :: split_max sep m s'
          else match split_max sep maxsplit s' with
               | f :: fs => String c f :: fs
               | [] => [String c EmptyString]
               end
      end
  end.

(** [s.rsplit(sep, maxsplit)]: at most [maxsplit] cuts, taken from the right. *)
Definition rsplit (sep : ascii) (maxsplit : nat) (s : string) : list string :=
  reverse (String.rev <$> split_max sep maxsplit (String.rev s)).

(** [l[-1]] *)
Definition index_last {A} (l : list A) : option A := last l.

(** [sep.join(l)] *)
Fixpoint join (sep : string) (l : list string) : string :=
  match l with
  | [] => EmptyString
  | [x] => x
  | x :: l' => x +:+ sep +:+ join sep l'
  end.

(** [s.startswith(p)] *)
Definition startswith (p s : string) : bool := String.prefix p s.

End PyStr.

(** ** Python runtime: exceptions, values, the world and its monad *)

Module Py.

(** The exception classes the code raises or meets.  All of them derive
    from [Exception], so [except Exception] catches every one;
    [LibraryError] stands for whatever a third-party library raises. *)
Inductive exn_class :=
| FileNotFoundError
| IndexError
| ImportError
| LibraryError
| Exception.

(** A raised exception: its class and [str(e)]. *)
Record exn := Exn { exn_cls : exn_class; exn_str : string }.

Inductive result (A : Type) :=
| Ok (a : A)
| Raise (e : exn).
Arguments Ok {A} a.
Arguments Raise {A} e.

(** Values stored in the dicts that [jsonify] serialises. *)
Inductive value :=
| VStr (s : string)
| VBool (b : bool)
| VFloat (q : Q).

(** Instrumentation: what a handler did, in order. *)
Inductive event :=
| TempCreated (path : string)      (* NamedTemporaryFile(delete=False) *)
| DecodeAttempt (source : string)  (* Image.open / cv2.imread *)
| Segmentation                     (* rembg.remove *)
| StError (msg : string)           (* st.error *)
| StSuccess (msg : string)         (* st.success *)
| StInfo (msg : string)            (* st.info *)
| StImage (caption : string)       (* st.image *)
| StDownload (data : list Byte.byte) (file_name : string)
| StCode (text : string).          (* st.code *)

(** The world: a flat file system (path to content) and the event log,
    most recent event first. *)
Record world := World {
  fs : gmap string (list Byte.byte);
  trace : list event
}.

Definition M (A : Type) : Type := world → result A * world.

Definition ret {A} (a : A) : M A := λ w, (Ok a, w).

Definition bind {A B} (m : M A) (k : A → M B) : M B := λ w,
  match m w with
  | (Ok a, w') => k a w'
  | (Raise e, w') => (Raise e, w')
  end.

Definition raise {A} (c : exn_class) (msg : string) : M A :=
  λ w, (Raise (Exn c msg), w).

(** Lift the outcome of a pure external call. *)
Definition lift {A} (r : result A) : M A := λ w, (r, w).

(** [try: m except Exception as e: h e] *)
Definition try_except {A} (m : M A) (h : exn → M A) : M A := λ w,
  match m w with
  | (Ok a, w') => (Ok a, w')
  | (Raise e, w') => h e w'
  end.

(** [try: m finally: fin]; an exception of [fin] replaces the outcome. *)
Definition try_finally {A} (m : M A) (fin : M unit) : M A := λ w,
  match m w with
  | (r, w') =>
      match fin w' with
      | (Ok _, w'') => (r, w'')
      | (Raise e, w'') => (Raise e, w'')
      end
  end.

Definition log (e : event) : M unit :=
  λ w, (Ok tt, World (fs w) (e :: trace w)).

(** [os.path.exists(path)] *)
Definition os_path_exists (path : string) : M bool :=
  λ w, (Ok (bool_decide (is_Some (fs w !! path))), w).

(** The content of [path], if the file exists. *)
Definition lookup_file (path : string) : M (option (list Byte.byte)) :=
  λ w, (Ok (fs w !! path), w).

(** [os.unlink(path)]; [enoent path] is the message of the
    FileNotFoundError that the runtime raises for [path]. *)
Definition os_unlink (enoent : string → string) (path : string) : M unit :=
  λ w,
  match fs w !! path with
  | Some _ => (Ok tt, World (delete path (fs w)) (trace w))
  | None => (Raise (Exn FileNotFoundError (enoent path)), w)
  end.

(** [open(path, 'rb').read()] *)
Definition read_file (enoent : string → string) (path : string)
  : M (list Byte.byte) := λ w,
  match fs w !! path with
  | Some data => (Ok data, w)
  | None => (Raise (Exn FileNotFoundError (enoent path)), w)
  end.

(** [open(path, 'wb')]: an existing file is truncated; whether a new
    file can be created at [path] is the operating system's verdict
    [create path] (an error for the empty path, for a missing parent
    directory and the like). *)
Definition open_wb (create : string → result unit) (path : string) : M unit :=
  λ w,
  match fs w !! path with
  | Some _ => (Ok tt, World (<[path := []]> (fs w)) (trace w))
  | None =>
      match create path with
      | Ok _ => (Ok tt, World (<[path := []]> (fs w)) (trace w))
      | Raise e => (Raise e, w)
      end
  end.

(** [handle.write(data)] on a file open for writing at [path], and
    likewise [FileStorage.save(path)] onto a temporary file. *)
Definition write_file (path : string) (data : list Byte.byte) : M unit :=
  λ w, (Ok tt, World (<[path := data]> (fs w)) (trace w)).

(** [m] changes no file other than those in [paths]. *)
Definition touches_only {A} (paths : list string) (m : M A) : Prop :=
  ∀ w q, q ∉ paths → fs (snd (m w)) !! q = fs w !! q.

(** The candidate names of the temp-file facility. *)
Definition temp_name (suffix : string) (n : nat) : string :=
  "/tmp/tmp" +:+ pretty n +:+ suffix.

(** The first candidate from the [n]-th on that names no existing file;
    after [fuel] occupied candidates the next one is taken as it is. *)
Fixpoint first_free (files : gmap string (list Byte.byte)) (suffix : string)
    (fuel n : nat) : string :=
  let name := temp_name suffix n in
  match fuel with
  | O => name
  | S fuel' =>
      match files !! name with
      | Some _ => first_free files suffix fuel' (S n)
      | None => name
      end
  end.

(** The name the facility hands out.  Among one more candidate than there
    are files, one is free. *)
Definition fresh_temp_name (suffix : string)
    (files : gmap string (list Byte.byte)) : string :=
  first_free files suffix (size files) 0.

(** [tempfile.NamedTemporaryFile(delete=False, suffix=suffix)]: creates an
    empty file under a new name and returns that name ([.name]). *)
Definition NamedTemporaryFile (suffix : string) : M string := λ w,
  let name := fresh_temp_name suffix (fs w) in
  (Ok name, World (<[name := []]> (fs w)) (TempCreated name :: trace w)).

End Py.

(** ** Python floats

    A finite double is a rational number, so floats are modelled in [Q].
    Every float operation of [resolution_score] is exact on its inputs
    (division by [2^16], a product below [2^53]); [round(x, 2)] is
    Python's correctly rounded, ties-to-even rounding, and its result is
    kept in lowest terms. *)

Module PyFloat.

(** [x < y] *)
Definition ltb (x y : Q) : bool := negb (Qle_bool y x).

(** [min(x, y)]: the first of the smallest arguments. *)
Definition min (x y : Q) : Q := if ltb y x then y else x.

(** Nearest integer, ties to the even one. *)
Definition round_half_even (x : Q) : Z :=
  let n := Qnum x in
  let d := Zpos (Qden x) in
  let fl := (n / d)%Z in
  let r := (n mod d)%Z in
  match (2 * r ?= d)%Z with
  | Lt => fl
  | Gt => (fl + 1)%Z
  | Eq => if Z.even fl then fl else (fl + 1)%Z
  end.

(** [round(x, ndigits)] *)
Definition round (x : Q) (ndigits : nat) : Q :=
  let scale := inject_Z (10 ^ Z.of_nat ndigits) in
  Qred (inject_Z (round_half_even (x * scale)) / scale).

End PyFloat.

(** ** Third-party capabilities *)

Module Ext.

(** What [PIL.Image.open] hands back: the size read from the header, and
    the outcomes of [img.verify()] and of loading the pixel data. *)
Record pil_image := PilImage {
  size : Z * Z;
  verify : Py.result unit;
  load : Py.result unit
}.

Record externals := Externals {
  (* PIL.Image.open, on the content of the file *)
  PIL_open : list Byte.byte → Py.result pil_image;
  (* cv2.imread(_, cv2.IMREAD_GRAYSCALE), on the content of the file:
     the rows of grey levels, or None *)
  cv2_imdecode_gray : list Byte.byte → option (list (list Z));
  (* cv2.Laplacian(image, cv2.CV_64F).var() *)
  Laplacian_var : list (list Z) → Q;
  (* rembg.remove *)
  rembg_remove : list Byte.byte → Py.result (list Byte.byte);
  (* werkzeug.utils.secure_filename *)
  secure_filename : string → string;
  (* the order in which ", ".join iterates over the set ALLOWED_EXTENSIONS *)
  allowed_extensions_iter : list string;
  (* str(e) of the FileNotFoundError the runtime raises for a missing
     path: the operating system's text followed by repr(path) *)
  enoent_message : string → string;
  (* the operating system creating a new file at a path, as open(path,
     'wb') asks: an error for the empty path, a missing parent directory
     and the like *)
  os_create : string → Py.result unit
}.

End Ext.

Import Py Ext.

#[global] Instance M_ret : MRet M := @Py.ret.
#[global] Instance M_bind : MBind M := λ A B k m, Py.bind m k.

(** [Image.open(path)] *)
Definition Image_open (ext : externals) (path : string) : M pil_image :=
  _ ← log (DecodeAttempt path);
  data ← read_file (enoent_message ext) path;
  lift (PIL_open ext data).

(** [cv2.imread(path, cv2.IMREAD_GRAYSCALE)]: None when the file is
    missing or cannot be decoded. *)
Definition cv2_imread_gray (ext : externals) (path : string)
  : M (option (list (list Z))) :=
  _ ← log (DecodeAttempt path);
  content ← lookup_file path;
  match content with
  | Some data => mret (cv2_imdecode_gray ext data)
  | None => mret None
  end.

(** ** models/image_analyzer.py *)

Module ImageAnalyzer.
Section WithExternals.
Context (ext : externals).

Definition resolution_score (image_path : string) : M Q :=
  found ← os_path_exists image_path;
  if negb found then
    raise FileNotFoundError ("Image file not found: " +:+ image_path)
  else
    try_except
      (img ← Image_open ext image_path;
       let '(width, height) := size img in
       let total_pixels := (width * height)%Z in
       let reference_pixels := (256 * 256)%Z in
       let score :=
         PyFloat.min
           (inject_Z total_pixels / inject_Z reference_pixels * 100)%Q 100%Q in
       mret (PyFloat.round score 2))
      (λ e, raise Exception ("Failed to analyze resolution: " +:+ exn_str e)).

Definition default_threshold : Q := 100.

Definition is_blurry (image_path : string) (threshold : Q) : M bool :=
  found ← os_path_exists image_path;
  if negb found then
    raise FileNotFoundError ("Image file not found: " +:+ image_path)
  else
    try_except
      (image ← cv2_imread_gray ext image_path;
       match image with
       | None =>
           raise Exception "Could not read image file - may not be a valid image"
       | Some image =>
           let laplacian_var := Laplacian_var ext image in
           mret (PyFloat.ltb laplacian_var threshold)
       end)
      (λ e, raise Exception ("Failed to analyze blur: " +:+ exn_str e)).

Definition blur_score (image_path : string) : M Q :=
  found ← os_path_exists image_path;
  if negb found then
    raise FileNotFoundError ("Image file not found: " +:+ image_path)
  else
    try_except
      (image ← cv2_imread_gray ext image_path;
       match image with
       | None =>
           raise Exception "Could not read image file - may not be a valid image"
       | Some image =>
           let laplacian_var := Laplacian_var ext image in
           mret (PyFloat.round laplacian_var 2)
       end)
      (λ e, raise Exception ("Failed to calculate blur score: " +:+ exn_str e)).

Definition analyze_image_quality (image_path : string)
  : M (gmap string value) :=
  try_except
    (img ← Image_open ext image_path;
     _ ← lift (verify img);
     is_image_blurry ← is_blurry image_path default_threshold;
     rs ← resolution_score image_path;
     bs ← blur_score image_path;
     mret (<["resolution_score" := VFloat rs]>
          (<["is_blurry" := VBool is_image_blurry]>
          (<["blur_score" := VFloat bs]>
          (<["clarity" :=
               VStr (if negb is_image_blurry then "Clear" else "Blurry")]>
           ∅)))))
    (λ e, raise Exception ("Image quality analysis failed: " +:+ exn_str e)).

End WithExternals.
End ImageAnalyzer.

(** ** models/background_remover.py *)

Module BackgroundRemover.
Section WithExternals.
Context (ext : externals).

Definition remove_background (input_path output_path : string) : M unit :=
  found ← os_path_exists input_path;
  if negb found then
    raise FileNotFoundError ("Input file not found: " +:+ input_path)
  else
    try_except
      (input_bytes ← read_file (enoent_message ext) input_path;
       _ ← log Segmentation;
       output_bytes ← lift (rembg_remove ext input_bytes);
       _ ← open_wb (os_create ext) output_path;
       write_file output_path output_bytes)
      (λ e, raise Exception ("Failed to remove background: " +:+ exn_str e)).

End WithExternals.
End BackgroundRemover.

(** ** main.py: the Flask API *)

Module Main.

Definition ALLOWED_EXTENSIONS : gset string :=
  {[ "png"; "jpg"; "jpeg"; "gif"; "bmp"; "tiff"; "webp" ]}.

(** ['.' in filename and
     filename.rsplit('.', 1)[1].lower() in ALLOWED_EXTENSIONS] *)
Definition allowed_file (filename : string) : result bool :=
  if PyStr.contains "." filename then
    match PyStr.rsplit "." 1 filename !! 1%nat with
    | Some ext => Ok (bool_decide (PyStr.lower ext ∈ ALLOWED_EXTENSIONS))
    | None => Raise (Exn IndexError "list index out of range")
    end
  else Ok false.

(** An uploaded part: werkzeug's FileStorage. *)
Record FileStorage := {
  filename : string;
  stream : list Byte.byte
}.

(** [app.config['MAX_CONTENT_LENGTH']] *)
Definition MAX_CONTENT_LENGTH : Z := 16 * 1024 * 1024.

(** The part of a request the handlers read: the length of its body and
    the uploaded parts that parsing it yields. *)
Record request := {
  content_length : Z;
  files : gmap string FileStorage
}.

(** [request.files]: the body is parsed on first access, and Flask
    refuses a body longer than MAX_CONTENT_LENGTH by raising werkzeug's
    RequestEntityTooLarge. *)
Definition request_files (req : request) : M (gmap string FileStorage) :=
  if (MAX_CONTENT_LENGTH <? content_length req)%Z then
    raise LibraryError
      "413 Request Entity Too Large: The data value transmitted exceeds the capacity limit."
  else mret (files req).

Inductive response :=
| Json (body : gmap string value) (status : Z)          (* jsonify(body), status *)
| SendFile (path : string) (content : list Byte.byte)
           (download_name mimetype : string).           (* send_file(...) *)

Section WithExternals.
Context (ext : externals).

Definition is_valid_image (file_path : string) : M bool :=
  try_except
    (img ← Image_open ext file_path;
     _ ← lift (verify img);
     mret true)
    (λ _ : exn, mret false).

Definition invalid_file_type : string :=
  "Invalid file type. Allowed types: "
    +:+ PyStr.join ", " (allowed_extensions_iter ext).

(** [send_file(path, as_attachment=True, download_name=..., mimetype=...)] *)
Definition send_file (path download_name mimetype : string) : M response :=
  content ← read_file (enoent_message ext) path;
  mret (SendFile path content download_name mimetype).

Definition analyze_image (req : request) : M response :=
  try_except
    (uploaded ← request_files req;
     match uploaded !! "image" with
     | None => mret (Json {[ "error" := VStr "No image file provided" ]} 400)
     | Some file =>
         if String.eqb (filename file) "" then
           mret (Json {[ "error" := VStr "No file selected" ]} 400)
         else
           allowed ← lift (allowed_file (filename file));
           if negb allowed then
             mret (Json {[ "error" := VStr invalid_file_type ]} 400)
           else
             temp_path ← (temp_file ← NamedTemporaryFile ".jpg";
                          _ ← write_file temp_file (stream file);
                          mret temp_file);
             try_finally
               (valid ← is_valid_image temp_path;
                if negb valid then
                  mret (Json {[ "error" := VStr "File is not a valid image" ]} 400)
                else
                  results ← ImageAnalyzer.analyze_image_quality ext temp_path;
                  let results :=
                    <["filename" := VStr (secure_filename ext (filename file))]>
                      results in
                  let results := <["status" := VStr "success"]> results in
                  mret (Json results 200))
               (found ← os_path_exists temp_path;
                if (found : bool) then os_unlink (enoent_message ext) temp_path
                else mret tt)
     end)
    (λ e, mret (Json (<["error" := VStr "Analysis failed"]>
                     {[ "details" := VStr (exn_str e) ]}) 500)).

Definition remove_bg (req : request) : M response :=
  try_except
    (uploaded ← request_files req;
     match uploaded !! "image" with
     | None => mret (Json {[ "error" := VStr "No image file provided" ]} 400)
     | Some file =>
         if String.eqb (filename file) "" then
           mret (Json {[ "error" := VStr "No file selected" ]} 400)
         else
           allowed ← lift (allowed_file (filename file));
           if negb allowed then
             mret (Json {[ "error" := VStr invalid_file_type ]} 400)
           else
             input_temp ← NamedTemporaryFile ".jpg";
             output_temp ← NamedTemporaryFile ".png";
             try_finally
               (_ ← write_file input_temp (stream file);
                valid ← is_valid_image input_temp;
                if negb valid then
                  mret (Json {[ "error" := VStr "File is not a valid image" ]} 400)
                else
                  _ ← BackgroundRemover.remove_background ext
                        input_temp output_temp;
                  send_file output_temp
                    ("no_bg_" +:+ secure_filename ext (filename file) +:+ ".png")
                    "image/png")
               (found ← os_path_exists input_temp;
                if (found : bool) then os_unlink (enoent_message ext) input_temp
                else mret tt)
     end)
    (λ e, mret (Json (<["error" := VStr "Background removal failed"]>
                     {[ "details" := VStr (exn_str e) ]}) 500)).

End WithExternals.
End Main.

(** ** app.py: the Streamlit UI *)

Module App.

Definition ALLOWED_EXTENSIONS : gset string :=
  {[ "png"; "jpg"; "jpeg"; "gif"; "bmp"; "tiff"; "webp" ]}.

(** [filename] is [None] or a string; [not filename] holds for [None]
    and for the empty string. *)
Definition is_valid_image_extension (filename : option string) : result bool :=
  match filename with
  | None => Ok false
  | Some "" => Ok false
  | Some filename =>
      match PyStr.index_last (PyStr.split "." filename) with
      | Some part =>
          let extension := PyStr.lower part in
          Ok (bool_decide (extension ∈ ALLOWED_EXTENSIONS))
      | None => Raise (Exn IndexError "list index out of range")
      end
  end.

(** Streamlit's UploadedFile.  Every read of it in the handlers follows a
    [seek(0)], so the read position is not modelled. *)
Record UploadedFile := {
  name : string;
  data : list Byte.byte
}.

Section WithExternals.
Context (ext : externals).

(** [Image.open(uploaded_file)] on a file object *)
Definition Image_open_upload (uploaded_file : UploadedFile) : M pil_image :=
  _ ← log (DecodeAttempt (name uploaded_file));
  lift (PIL_open ext (data uploaded_file)).

Definition is_valid_image_file (uploaded_file : UploadedFile) : M bool :=
  try_except
    (image ← Image_open_upload uploaded_file;
     _ ← lift (verify image);
     mret true)
    (λ _ : exn, mret false).

(** [st.image(image, caption=...)]: renders, hence loads, the image. *)
Definition st_image (image : pil_image) (caption : string) : M unit :=
  _ ← lift (load image);
  log (StImage caption).

(** [remove_background] as imported at the top of app.py: the real one,
    or the fallback that raises when the import failed. *)
Definition remove_background (BACKGROUND_REMOVAL_AVAILABLE : bool)
    (input_path output_path : string) : M unit :=
  if BACKGROUND_REMOVAL_AVAILABLE then
    BackgroundRemover.remove_background ext input_path output_path
  else raise ImportError "Background removal dependencies not installed".

Definition invalid_file_type : string :=
  "Invalid file type. Allowed types: "
    +:+ PyStr.join ", " (allowed_extensions_iter ext).

(** The text of the [st.info] call: its heading, the lists of packages
    that follow it being left out. *)
Definition install_hint : string :=
  "**To enable background removal, you need to install the following dependencies:**".

(** [show_background_removal()].  Pure layout calls ([st.header],
    [st.subheader], [st.columns], [st.spinner]) leave no trace in the
    model, and [st.code(traceback.format_exc())] is logged with the
    message of the exception.  [uploaded_file] is what
    [st.file_uploader] returned and [button] what [st.button] returned. *)
Definition show_background_removal (BACKGROUND_REMOVAL_AVAILABLE : bool)
    (uploaded_file : option UploadedFile) (button : bool) : M unit :=
  if negb BACKGROUND_REMOVAL_AVAILABLE then
    _ ← log (StError
      "❌ Background removal is not available due to missing dependencies.");
    log (StInfo install_hint)
  else
    match uploaded_file with
    | None => mret tt
    | Some uploaded_file =>
        valid_ext ← lift (is_valid_image_extension (Some (name uploaded_file)));
        if negb valid_ext then log (StError invalid_file_type)
        else
          shown ← try_except
                    (image ← Image_open_upload uploaded_file;
                     _ ← st_image image (name uploaded_file);
                     mret true)
                    (λ _ : exn, _ ← log (StError
                       "Error loading image. Please make sure it's a valid image file.");
                       mret false);
          if negb shown then mret tt
          else if negb button then mret tt
          else
            try_except
              (valid ← is_valid_image_file uploaded_file;
               if negb valid then log (StError "File is not a valid image.")
               else
                 input_temp ← NamedTemporaryFile ".jpg";
                 output_temp ← NamedTemporaryFile ".png";
                 try_finally
                   (_ ← write_file input_temp (data uploaded_file);
                    _ ← remove_background BACKGROUND_REMOVAL_AVAILABLE
                          input_temp output_temp;
                    processed_image ← Image_open ext output_temp;
                    _ ← st_image processed_image "Background Removed";
                    file ← read_file (enoent_message ext) output_temp;
                    stem ← match PyStr.split "." (name uploaded_file) !! 0%nat with
                           | Some stem => mret stem
                           | None => raise IndexError "list index out of range"
                           end;
                    _ ← log (StDownload file ("no_bg_" +:+ stem +:+ ".png"));
                    log (StSuccess "Background removal completed!"))
                   (found ← os_path_exists input_temp;
                    _ ← (if (found : bool)
                         then os_unlink (enoent_message ext) input_temp
                         else mret tt);
                    found ← os_path_exists output_temp;
                    if (found : bool)
                    then os_unlink (enoent_message ext) output_temp
                    else mret tt))
              (λ e,
                 _ ← log (StError ("Background removal failed: " +:+ exn_str e));
                 _ ← log (StError
                       "Please check that your models are properly configured.");
                 log (StCode (exn_str e)))
    end.

End WithExternals.
End App.

(** ** A concrete instance of the third-party capabilities

    Used to run the handlers on explicit inputs.  Images are stored in a
    raw layout: the byte [P], the width and the height on two big-endian
    bytes each, then one byte per grey level, row by row.  Opening reads
    the header only, and as Pillow does it refuses a width or a height
    that is not positive and an image of more pixels than twice
    [Image.MAX_IMAGE_PIXELS]; verifying and decoding need all the pixels.
    The file system is flat, with the working directory and [/tmp] as its
    only directories.  The
    Laplacian follows OpenCV's defaults for [cv2.Laplacian(image, CV_64F)]:
    the 3x3 aperture [[0 1 0; 1 -4 1; 0 1 0]] with the border reflected
    without repeating the edge, and [var()] is the population variance. *)

Module Sample.

Definition byte_Z (b : Byte.byte) : Z := Z.of_N (Byte.to_N b).

Fixpoint rows (width height : nat) (pixels : list Z) : list (list Z) :=
  match height with
  | O => []
  | S h => take width pixels :: rows width h (drop width pixels)
  end.

Definition header (content : list Byte.byte)
  : option (Z * Z * list Byte.byte) :=
  match content with
  | Byte.x50 :: w1 :: w0 :: h1 :: h0 :: pixels =>
      Some ((256 * byte_Z w1 + byte_Z w0)%Z, (256 * byte_Z h1 + byte_Z h0)%Z,
            pixels)
  | _ => None
  end.

Definition complete (width height : Z) (pixels : list Byte.byte) : bool :=
  bool_decide (Z.of_nat (length pixels) = (width * height)%Z).

(** Twice [PIL.Image.MAX_IMAGE_PIXELS]: above it, opening fails. *)
Definition pixel_limit : Z := 2 * 89478485.

Definition PIL_open (content : list Byte.byte) : result pil_image :=
  match header content with
  | Some (width, height, pixels) =>
      if (width <=? 0)%Z || (height <=? 0)%Z then
        Raise (Exn LibraryError "cannot identify image file")
      else if (pixel_limit <? width * height)%Z then
        Raise (Exn LibraryError
                 ("Image size (" +:+ pretty (width * height)%Z
                  +:+ " pixels) exceeds limit of " +:+ pretty pixel_limit
                  +:+ " pixels, could be decompression bomb DOS attack."))
      else
        let check :=
          if complete width height pixels then Ok tt
          else Raise (Exn LibraryError "image file is truncated") in
        Ok (PilImage (width, height) check check)
  | None => Raise (Exn LibraryError "cannot identify image file")
  end.

Definition cv2_imdecode_gray (content : list Byte.byte)
  : option (list (list Z)) :=
  match header content with
  | Some (width, height, pixels) =>
      if complete width height pixels then
        Some (rows (Z.to_nat width) (Z.to_nat height) (byte_Z <$> pixels))
      else None
  | None => None
  end.

(** Index of the sample taken for position [i] of an axis of length [n]. *)
Definition reflect101 (n i : Z) : Z :=
  if (n =? 1)%Z then 0%Z
  else if (i <? 0)%Z then (- i)%Z
  else if (n <=? i)%Z then (2 * (n - 1) - i)%Z
  else i.

Definition pixel (image : list (list Z)) (i j : Z) : Z :=
  let row := default [] (image !! Z.to_nat (reflect101 (Z.of_nat (length image)) i)) in
  default 0%Z (row !! Z.to_nat (reflect101 (Z.of_nat (length row)) j)).

Definition laplacian_at (image : list (list Z)) (i j : Z) : Z :=
  (pixel image (i - 1) j + pixel image (i + 1) j
   + pixel image i (j - 1) + pixel image i (j + 1) - 4 * pixel image i j)%Z.

Definition laplacian (image : list (list Z)) : list Z :=
  i ← seqZ 0 (Z.of_nat (length image));
  j ← seqZ 0 (Z.of_nat (length (default [] (image !! Z.to_nat i))));
  [laplacian_at image i j].

Definition sumZ (xs : list Z) : Z := foldr Z.add 0%Z xs.

(** Population variance: the mean of the squares minus the squared mean. *)
Definition variance (xs : list Z) : Q :=
  let n := Z.of_nat (length xs) in
  let s := sumZ xs in
  let s2 := sumZ ((λ x, x * x)%Z <$> xs) in
  Qred (inject_Z (n * s2 - s * s) / inject_Z (n * n)).

Definition Laplacian_var (image : list (list Z)) : Q :=
  variance (laplacian image).

(** The sample segmentation keeps the image as it is and fails on content
    it cannot decode. *)
Definition rembg_remove (content : list Byte.byte) : result (list Byte.byte) :=
  match cv2_imdecode_gray content with
  | Some _ => Ok content
  | None => Raise (Exn LibraryError "cannot identify image file")
  end.

Definition hex_digit (n : nat) : ascii :=
  if (n <? 10)%nat then ascii_of_nat (48 + n) else ascii_of_nat (87 + n).

Definition apostrophe : ascii := ascii_of_nat 39.
Definition double_quote : ascii := ascii_of_nat 34.
Definition backslash : ascii := ascii_of_nat 92.

(** One character of [repr(s)] for a string quoted with [quote]: the
    quote and the backslash are escaped, control characters are written
    as their escapes. *)
Definition repr_char (quote c : ascii) : string :=
  let n := nat_of_ascii c in
  if Ascii.eqb c quote || Ascii.eqb c backslash then
    String backslash (String c "")
  else if (n =? 10)%nat then String backslash "n"
  else if (n =? 13)%nat then String backslash "r"
  else if (n =? 9)%nat then String backslash "t"
  else if (n <? 32)%nat || (n =? 127)%nat then
    String backslash (String "x" (String (hex_digit (n / 16))
                                (String (hex_digit (n mod 16)) "")))
  else String c "".

Fixpoint repr_body (quote : ascii) (s : string) : string :=
  match s with
  | EmptyString => EmptyString
  | String c s' => repr_char quote c +:+ repr_body quote s'
  end.

(** [repr(s)]: in apostrophes, or in double quotes when [s] holds an
    apostrophe and no double quote. *)
Definition repr (s : string) : string :=
  let quote :=
    if PyStr.contains apostrophe s && negb (PyStr.contains double_quote s)
    then double_quote else apostrophe in
  String quote (repr_body quote s) +:+ String quote "".

Definition enoent_message (path : string) : string :=
  "[Errno 2] No such file or directory: " +:+ repr path.

(** A new file can be created in the working directory and in [/tmp]. *)
Definition os_create (path : string) : result unit :=
  match PyStr.rsplit "/" 1 path with
  | [name] =>
      if String.eqb name "" then
        Raise (Exn FileNotFoundError (enoent_message path))
      else Ok tt
  | [directory; name] =>
      if negb (String.eqb directory "/tmp") then
        Raise (Exn FileNotFoundError (enoent_message path))
      else if String.eqb name "" then
        Raise (Exn LibraryError ("[Errno 21] Is a directory: " +:+ repr path))
      else Ok tt
  | _ => Raise (Exn FileNotFoundError (enoent_message path))
  end.

Definition ext : externals := {|
  Ext.PIL_open := PIL_open;
  Ext.cv2_imdecode_gray := cv2_imdecode_gray;
  Ext.Laplacian_var := Laplacian_var;
  Ext.rembg_remove := rembg_remove;
  Ext.secure_filename := λ s, s;
  Ext.allowed_extensions_iter :=
    ["png"; "jpg"; "jpeg"; "gif"; "bmp"; "tiff"; "webp"];
  Ext.enoent_message := enoent_message;
  Ext.os_create := os_create
|}.

Definition of_Z (z : Z) : Byte.byte :=
  default Byte.x00 (Byte.of_N (Z.to_N z)).

(** The file holding an image given by its rows. *)
Definition encode (width height : Z) (image : list (list Z))
  : list Byte.byte :=
  Byte.x50 :: of_Z (width / 256) :: of_Z (width mod 256)
    :: of_Z (height / 256) :: of_Z (height mod 256)
    :: (of_Z <$> concat image).

(** An 8x4 image whose Laplacian variance is 102399/1024, just under 100. *)
Definition soft_image : list (list Z) :=
  [ [11; 8; 5; 4; 7; 11; 14; 8];
    [14; 14; 17; 13; 8; 11; 11; 8];
    [11; 11; 12; 16; 10; 9; 8; 8];
    [9; 8; 8; 13; 8; 7; 5; 8] ]%Z.

Definition soft_file : list Byte.byte := encode 8 4 soft_image.

(** Headers only: a 256x256 and a 128x128 image without pixel data. *)
Definition header_256 : list Byte.byte :=
  [Byte.x50; Byte.x01; Byte.x00; Byte.x01; Byte.x00].
Definition header_128 : list Byte.byte :=
  [Byte.x50; Byte.x00; Byte.x80; Byte.x00; Byte.x80].

(** Bytes that are no image at all. *)
Definition junk : list Byte.byte := [Byte.x6e; Byte.x6f; Byte.x70; Byte.x65].

Definition empty_world : world := World ∅ [].

(** A world with one file. *)
Definition world_with (path : string) (content : list Byte.byte) : world :=
  World {[ path := content ]} [].

(** A request uploading [content] under [filename] in the field [image];
    its body is longer than the content it carries. *)
Definition upload (filename : string) (content : list Byte.byte)
  : Main.request :=
  {| Main.content_length := Z.of_nat (length content) + 200;
     Main.files := {[ "image" := {| Main.filename := filename;
                                    Main.stream := content |} ]} |}.


End Sample.

(** ** The specification's wording *)

Module Spec.

(** The suffix of [s] after its last [sep], when [s] contains [sep]. *)
Fixpoint suffix_after_last (sep : ascii) (s : string) : option string :=
  match s with
  | EmptyString => None
  | String c s' =>
      match suffix_after_last sep s' with
      | Some suffix => Some suffix
      | None => if Ascii.eqb c sep then Some s' else None
      end
  end.

(** hasAllowedExtension: the filename contains a dot and its suffix,
    case-insensitively, is one of the seven extensions; false for the
    empty filename. *)
Definition hasAllowedExtension (filename : string) : bool :=
  match suffix_after_last "." filename with
  | Some suffix =>
      bool_decide (PyStr.lower suffix ∈ Main.ALLOWED_EXTENSIONS)
  | None => false
  end.

(** [r] is [x] rounded to 2 decimals: a whole number of hundredths at
    distance at most half a hundredth from [x]. *)
Definition rounded_to_2_decimals (x r : Q) : Prop :=
  (∃ k : Z, r == inject_Z k / 100)%Q ∧ (Qabs (r - x) <= 1 # 200)%Q.

(** resolutionScore before rounding. *)
Definition resolution_formula (width height : Z) : Q :=
  Qmin (inject_Z (width * height) / inject_Z (256 * 256) * 100)%Q 100%Q.


(** isDecodableImage: the content opens as an image and verifies. *)
Definition decodable (ext : externals) (content : list Byte.byte) : Prop :=
  ∃ img, PIL_open ext content = Ok img ∧ verify img = Ok tt.

End Spec.

(** ** app.py, continued: the analysis page and the PIL-only fallback *)

Module AppAnalysis.

(** Values of the dicts shown by the analysis page; the fallback dict
    holds integers and possibly [None] next to floats and strings. *)
Inductive jvalue :=
| JNone
| JInt (z : Z)
| JFloat (q : Q)
| JNaN
| JStr (s : string)
| JBool (b : bool).

Definition of_value (v : value) : jvalue :=
  match v with
  | VStr s => JStr s
  | VBool b => JBool b
  | VFloat q => JFloat q
  end.

(** What the fallback needs beyond [externals]: attributes of the opened
    image, the grey-level conversion, numpy's variance and float
    division. *)
Record fallback_externals := FallbackExternals {
  (* img.format, on the content of the file *)
  PIL_format : list Byte.byte → option string;
  (* img.mode *)
  PIL_mode : list Byte.byte → string;
  (* np.array(img.convert('L')): the rows of grey levels *)
  PIL_convert_L : list Byte.byte → result (list (list Z));
  (* np.var; None stands for NaN, which numpy returns for an array
     without elements *)
  np_var : list (list Z) → option Q;
  (* the float nearest to a / b, for b <> 0 *)
  float_div : Z → Z → Q
}.

(** [x < y] on floats either of which may be NaN: false with a NaN. *)
Definition float_lt (x y : option Q) : bool :=
  match x, y with
  | Some a, Some b => PyFloat.ltb a b
  | _, _ => false
  end.

Section WithExternals.
Context (ext : externals) (fext : fallback_externals).

(** [width / height] on integers: ZeroDivisionError, a subclass of
    Exception, when [height] is 0.  The handler that catches it keeps
    only its message. *)
Definition true_div (a b : Z) : M Q :=
  if (b =? 0)%Z then raise Exception "division by zero"
  else mret (float_div fext a b).

(** [os.path.getsize(path)] *)
Definition os_path_getsize (path : string) : M Z :=
  data ← read_file (enoent_message ext) path;
  mret (Z.of_nat (length data)).

(** The [analyze_image_quality] that app.py defines when importing
    models.image_analyzer fails. *)
Definition analyze_image_quality_fallback (image_path : string)
  : M (gmap string jvalue) :=
  try_except
    (img ← Image_open ext image_path;
     content ← read_file (enoent_message ext) image_path;
     let '(width, height) := size img in
     file_size ← os_path_getsize image_path;
     img_array ← lift (PIL_convert_L fext content);
     let laplacian_var := np_var fext img_array in
     ratio ← true_div width height;
     mret (<["width" := JInt width]>
          (<["height" := JInt height]>
          (<["file_size" := JInt file_size]>
          (<["format" := from_option JStr JNone (PIL_format fext content)]>
          (<["mode" := JStr (PIL_mode fext content)]>
          (<["blur_score" := from_option JFloat JNaN laplacian_var]>
          (<["blur_assessment" :=
               JStr (if float_lt (Some 100%Q) laplacian_var then "Sharp"
                     else if float_lt laplacian_var (Some 50%Q) then "Blurry"
                     else "Moderate")]>
          (<["resolution_category" :=
               JStr (if (1000000 <? width * height)%Z then "High"
                     else if (300000 <? width * height)%Z then "Medium"
                     else "Low")]>
          (<["aspect_ratio" := JFloat (PyFloat.round ratio 2)]>
          (<["total_pixels" := JInt (width * height)]> ∅)))))))))))
    (λ e, mret {[ "error" := JStr ("Analysis failed: " +:+ exn_str e) ]}).

(** [analyze_image_quality] as bound at the top of app.py: the imported
    analyzer, or the fallback. *)
Definition analyze_image_quality (IMAGE_ANALYSIS_AVAILABLE : bool)
    (image_path : string) : M (gmap string jvalue) :=
  if IMAGE_ANALYSIS_AVAILABLE then
    results ← ImageAnalyzer.analyze_image_quality ext image_path;
    mret (of_value <$> results)
  else analyze_image_quality_fallback image_path.

(** [show_image_analysis()].  [st.warning], [st.metric] and [st.json]
    have no event in the log and are left out, like the layout calls;
    none of them can fail on the dicts the two analyzers return.
    [uploaded_file] is what [st.file_uploader] returned and [button] what
    [st.button] returned. *)
Definition show_image_analysis (IMAGE_ANALYSIS_AVAILABLE : bool)
    (uploaded_file : option App.UploadedFile) (button : bool) : M unit :=
  match uploaded_file with
  | None => mret tt
  | Some uploaded_file =>
      valid_ext ← lift (App.is_valid_image_extension
                          (Some (App.name uploaded_file)));
      if negb valid_ext then log (StError (App.invalid_file_type ext))
      else
        shown ← try_except
                  (image ← App.Image_open_upload ext uploaded_file;
                   _ ← App.st_image image (App.name uploaded_file);
                   mret true)
                  (λ _ : exn, _ ← log (StError
                     "Error loading image. Please make sure it's a valid image file.");
                     mret false);
        if negb shown then mret tt
        else if negb button then mret tt
        else
          try_except
            (valid ← App.is_valid_image_file ext uploaded_file;
             if negb valid then log (StError "File is not a valid image.")
             else
               temp_path ← (temp_file ← NamedTemporaryFile ".jpg";
                            _ ← write_file temp_file (App.data uploaded_file);
                            mret temp_file);
               try_finally
                 (results ← analyze_image_quality IMAGE_ANALYSIS_AVAILABLE
                              temp_path;
                  log (StSuccess "Analysis completed!"))
                 (found ← os_path_exists temp_path;
                  if (found : bool) then os_unlink (enoent_message ext) temp_path else mret tt))
            (λ e,
               _ ← log (StError ("Analysis failed: " +:+ exn_str e));
               log (StError
                      "Please check that your models are properly configured."))
  end.

End WithExternals.
End AppAnalysis.

(** A concrete instance of the fallback's capabilities, on the raw layout
    of [Sample]: grey-level images of mode [L], the variance of the grey
    levels themselves, and the exact quotient. *)

Module SampleFallback.

Definition convert_L (content : list Byte.byte) : result (list (list Z)) :=
  match Sample.cv2_imdecode_gray content with
  | Some image => Ok image
  | None => Raise (Exn LibraryError "image file is truncated")
  end.

Definition fext : AppAnalysis.fallback_externals := {|
  AppAnalysis.PIL_format := λ _, Some "RAW";
  AppAnalysis.PIL_mode := λ _, "L";
  AppAnalysis.PIL_convert_L := convert_L;
  AppAnalysis.np_var := λ image,
    match concat image with
    | [] => None
    | pixels => Some (Sample.variance pixels)
    end;
  AppAnalysis.float_div := λ a b, Qred (inject_Z a / inject_Z b)
|}.

(** The capabilities of [Sample] with an OpenCV that decodes nothing, as
    when a codec is missing from the build. *)
Definition ext_no_codec : externals := {|
  Ext.PIL_open := Sample.PIL_open;
  Ext.cv2_imdecode_gray := λ _, None;
  Ext.Laplacian_var := Sample.Laplacian_var;
  Ext.rembg_remove := Sample.rembg_remove;
  Ext.secure_filename := λ s, s;
  Ext.allowed_extensions_iter :=
    ["png"; "jpg"; "jpeg"; "gif"; "bmp"; "tiff"; "webp"];
  Ext.enoent_message := Sample.enoent_message;
  Ext.os_create := Sample.os_create
|}.

(** A 2x2 image with grey levels 0, 0, 200, 200: variance 10000. *)
Definition sharp_file : list Byte.byte :=
  Sample.encode 2 2 [ [0; 0]; [200; 200] ]%Z.

End SampleFallback.

(** * Properties *)

(** ** Strings *)

Section Strings.
Import PyStr.

Lemma app_nil (t : string) : "" +:+ t = t.
Proof. reflexivity. Qed.

Lemma app_cons (c : ascii) (s t : string) :
  String c s +:+ t = String c (s +:+ t).
Proof. reflexivity. Qed.

Lemma app_assoc_str (s t u : string) : s +:+ (t +:+ u) = (s +:+ t) +:+ u.
Proof.
  induction s as [|c s IH]; rewrite ?app_nil, ?app_cons; [done|by rewrite IH].
Qed.

Lemma app_empty_r (s : string) : s +:+ "" = s.
Proof.
  induction s as [|c s IH]; rewrite ?app_nil, ?app_cons; [done|by rewrite IH].
Qed.

Lemma rev_app_app (s t : string) :
  String.rev_app s t = String.rev_app s "" +:+ t.
Proof.
  revert t. induction s as [|c s IH]; intros t; simpl; [done|].
  rewrite (IH (String c t)), (IH (String c "")).
  by rewrite <- app_assoc_str, app_cons, app_nil.
Qed.

Lemma rev_cons (c : ascii) (s : string) :
  String.rev (String c s) = String.rev s +:+ String c "".
Proof. unfold String.rev. simpl. apply rev_app_app. Qed.

Lemma rev_app_distr (s t : string) :
  String.rev (s +:+ t) = String.rev t +:+ String.rev s.
Proof.
  induction s as [|c s IH]; rewrite ?app_nil, ?app_cons.
  - by rewrite app_empty_r.
  - rewrite !rev_cons, IH. by rewrite app_assoc_str.
Qed.

Lemma rev_involutive (s : string) : String.rev (String.rev s) = s.
Proof.
  induction s as [|c s IH]; [done|].
  rewrite rev_cons, rev_app_distr, IH. done.
Qed.

Lemma contains_app (c : ascii) (s t : string) :
  contains c (s +:+ t) = contains c s || contains c t.
Proof.
  induction s as [|d s IH]; rewrite ?app_nil, ?app_cons; simpl; [done|].
  destruct (Ascii.eqb d c); [done|apply IH].
Qed.

Lemma contains_rev (c : ascii) (s : string) :
  contains c (String.rev s) = contains c s.
Proof.
  induction s as [|d s IH]; [done|].
  rewrite rev_cons, contains_app, IH. simpl.
  destruct (Ascii.eqb d c); [apply orb_true_r|apply orb_false_r].
Qed.

Lemma split_max_0 (c : ascii) (s : string) : split_max c 0 s = [s].
Proof. by destruct s. Qed.

Lemma split_max_1_cut (c : ascii) (t u : string) :
  contains c t = false → split_max c 1 (t +:+ String c u) = [t; u].
Proof.
  induction t as [|d t IH]; rewrite ?app_nil, ?app_cons; simpl; intros H.
  - by rewrite Ascii.eqb_refl, split_max_0.
  - destruct (Ascii.eqb d c); [done|]. by rewrite (IH H).
Qed.

Lemma split_max_1_whole (c : ascii) (s : string) :
  contains c s = false → split_max c 1 s = [s].
Proof.
  induction s as [|d s IH]; simpl; intros H; [done|].
  destruct (Ascii.eqb d c); [done|]. by rewrite (IH H).
Qed.

(** A string with a separator splits at the last one. *)
Lemma cut_at_last (c : ascii) (s : string) :
  contains c s = true →
  ∃ pre suf, s = pre +:+ String c suf ∧ contains c suf = false.
Proof.
  induction s as [|d s IH]; simpl; [done|].
  destruct (contains c s) eqn:Hs.
  - intros _. destruct (IH eq_refl) as (pre & suf & -> & Hsuf).
    by exists (String d pre), suf.
  - destruct (Ascii.eqb d c) eqn:Hd; [|done]. intros _.
    apply Ascii.eqb_eq in Hd as ->. by exists "", s.
Qed.

Lemma rsplit_1_cut (c : ascii) (pre suf : string) :
  contains c suf = false → rsplit c 1 (pre +:+ String c suf) = [pre; suf].
Proof.
  intros H. unfold rsplit.
  rewrite rev_app_distr, rev_cons, <- app_assoc_str, app_cons, app_nil.
  rewrite split_max_1_cut by by rewrite contains_rev.
  simpl. by rewrite !rev_involutive.
Qed.

Lemma rsplit_1_whole (c : ascii) (s : string) :
  contains c s = false → rsplit c 1 s = [s].
Proof.
  intros H. unfold rsplit.
  rewrite split_max_1_whole by by rewrite contains_rev.
  simpl. by rewrite rev_involutive.
Qed.

Lemma suffix_after_last_whole (c : ascii) (s : string) :
  contains c s = false → Spec.suffix_after_last c s = None.
Proof.
  induction s as [|d s IH]; simpl; [done|].
  destruct (Ascii.eqb d c); [done|]. intros H. by rewrite (IH H).
Qed.

Lemma suffix_after_last_cut (c : ascii) (pre suf : string) :
  contains c suf = false →
  Spec.suffix_after_last c (pre +:+ String c suf) = Some suf.
Proof.
  intros H. induction pre as [|d pre IH]; rewrite ?app_nil, ?app_cons; simpl.
  - by rewrite (suffix_after_last_whole _ _ H), Ascii.eqb_refl.
  - by rewrite IH.
Qed.

Lemma split_nonempty (c : ascii) (s : string) : split c s ≠ [].
Proof.
  destruct s as [|d s]; simpl; [done|].
  destruct (Ascii.eqb d c); [done|]. by destruct (split c s).
Qed.

Lemma split_whole (c : ascii) (s : string) :
  contains c s = false → split c s = [s].
Proof.
  induction s as [|d s IH]; simpl; intros H; [done|].
  destruct (Ascii.eqb d c); [done|]. by rewrite (IH H).
Qed.

Lemma split_app (c : ascii) (t u : string) :
  split c (t +:+ String c u) = split c t ++ split c u.
Proof.
  induction t as [|d t IH]; rewrite ?app_nil, ?app_cons; simpl.
  - by rewrite Ascii.eqb_refl.
  - destruct (Ascii.eqb d c); [by rewrite IH|].
    rewrite IH. pose proof (split_nonempty c t). by destruct (split c t).
Qed.

Lemma last_split_cut (c : ascii) (pre suf : string) :
  contains c suf = false →
  index_last (split c (pre +:+ String c suf)) = Some suf.
Proof.
  intros H. unfold index_last.
  by rewrite split_app, (split_whole _ _ H), last_snoc.
Qed.

End Strings.

(** ** Validator: file extensions *)

Section Extensions.
Import PyStr.

(** The API validator computes the specification's hasAllowedExtension,
    and its list index is never out of range. *)
Lemma allowed_file_spec (filename : string) :
  Main.allowed_file filename = Ok (Spec.hasAllowedExtension filename).
Proof.
  unfold Main.allowed_file, Spec.hasAllowedExtension.
  destruct (contains "." filename) eqn:Hdot.
  - destruct (cut_at_last _ _ Hdot) as (pre & suf & -> & Hsuf).
    by rewrite (rsplit_1_cut _ _ _ Hsuf), (suffix_after_last_cut _ _ _ Hsuf).
  - by rewrite (suffix_after_last_whole _ _ Hdot).
Qed.

(** X1: the API validator never raises, its list index being always in
    range: it returns a boolean for every filename.  It accepts exactly
    the names [pre.suf] whose last suffix [suf], the part after the last
    dot, is an allowed extension once lower-cased. *)
Lemma allowed_file_true_iff (filename : string) :
  (∃ b, Main.allowed_file filename = Ok b)
  ∧ (Main.allowed_file filename = Ok true ↔
     ∃ pre suf, filename = pre +:+ "." +:+ suf ∧ contains "." suf = false
                ∧ lower suf ∈ Main.ALLOWED_EXTENSIONS).
Proof.
  split; [rewrite allowed_file_spec; eauto|].
  unfold Main.allowed_file. split.
  - destruct (contains "." filename) eqn:Hdot; [|done].
    destruct (cut_at_last _ _ Hdot) as (pre & suf & -> & Hsuf).
    rewrite (rsplit_1_cut _ _ _ Hsuf). simpl. intros [= H].
    exists pre, suf. split_and!; [done..|]. by apply bool_decide_eq_true in H.
  - intros (pre & suf & -> & Hsuf & Hin).
    change ("." +:+ suf) with (String "." suf).
    rewrite contains_app. simpl. rewrite orb_true_r.
    rewrite (rsplit_1_cut _ _ _ Hsuf). simpl.
    by rewrite bool_decide_eq_true_2.
Qed.

Lemma allowed_file_empty : Main.allowed_file "" = Ok false.
Proof. reflexivity. Qed.

(** The UI validator looks at the last dot-separated field, which is the
    whole name when there is no dot. *)
Lemma is_valid_image_extension_dotted (pre suf : string) :
  contains "." suf = false →
  App.is_valid_image_extension (Some (pre +:+ String "." suf)) =
  Ok (bool_decide (lower suf ∈ App.ALLOWED_EXTENSIONS)).
Proof.
  intros Hsuf.
  unfold App.is_valid_image_extension.
  rewrite (last_split_cut _ _ _ Hsuf).
  by destruct pre.
Qed.

(** X4: on a name without a dot the UI validator compares the whole
    name, lower-cased, with the allowed extensions. *)
Lemma is_valid_image_extension_dotless (filename : string) :
  contains "." filename = false →
  App.is_valid_image_extension (Some filename) =
  Ok (bool_decide (lower filename ∈ App.ALLOWED_EXTENSIONS)).
Proof.
  intros Hdot. unfold App.is_valid_image_extension.
  rewrite (split_whole _ _ Hdot). by destruct filename.
Qed.

Lemma is_valid_image_extension_missing :
  App.is_valid_image_extension None = Ok false
  ∧ App.is_valid_image_extension (Some "") = Ok false.
Proof. done. Qed.

(** X3: on names that contain a dot the UI and the API extension
    validators agree. *)
Lemma validators_agree_dotted (filename : string) :
  contains "." filename = true →
  App.is_valid_image_extension (Some filename) = Main.allowed_file filename.
Proof.
  intros Hdot. destruct (cut_at_last _ _ Hdot) as (pre & suf & -> & Hsuf).
  rewrite (is_valid_image_extension_dotted pre suf Hsuf).
  unfold Main.allowed_file.
  rewrite contains_app. simpl. rewrite orb_true_r.
  by rewrite (rsplit_1_cut _ _ _ Hsuf).
Qed.

(** C5 (code defect, UI validator): a name without any dot passes the
    UI's extension validator when the whole name is an extension.  For
    the filename [png], which contains no dot, [is_valid_image_extension]
    returns true, while hasAllowedExtension is false. *)
Theorem is_valid_image_extension_accepts_dotless :
  App.is_valid_image_extension (Some "png") = Ok true
  ∧ contains "." "png" = false
  ∧ Spec.hasAllowedExtension "png" = false.
Proof. split_and!; reflexivity. Qed.

(** C6 (code defect, UI validator): the UI and the API validators
    disagree on the filename [png]: the UI accepts it, the API rejects
    it. *)
Theorem validators_disagree_dotless :
  App.is_valid_image_extension (Some "png") = Ok true
  ∧ Main.allowed_file "png" = Ok false.
Proof. split; reflexivity. Qed.

End Extensions.

(** ** Running monadic code *)

Ltac unfold_monad :=
  unfold mbind, M_bind, mret, M_ret, Py.bind, Py.ret, Py.raise, Py.lift,
    Py.try_except, Py.try_finally, Py.log, Py.os_path_exists, Py.os_unlink,
    Py.read_file, Py.lookup_file, Py.open_wb, Py.write_file in *.

Ltac run := unfold_monad; simpl in *.

(** ** Validator: decodability *)

Section Decodable.
Context (ext : externals).

(** C7: [is_valid_image] (API, on a path) and [is_valid_image_file] (UI,
    on an upload) always return a boolean and never raise; the boolean
    is true exactly when the content exists and decodes, so every
    failure to open or verify gives false. *)
Theorem is_valid_image_never_raises (w : world) :
  (∀ path, ∃ b, fst (Main.is_valid_image ext path w) = Ok b
     ∧ (b = true ↔ ∃ content, fs w !! path = Some content ∧ Spec.decodable ext content))
  ∧ (∀ uploaded_file, ∃ b,
       fst (App.is_valid_image_file ext uploaded_file w) = Ok b
       ∧ (b = true ↔ Spec.decodable ext (App.data uploaded_file))).
Proof.
  split.
  - intros path. unfold Main.is_valid_image, Image_open. run.
    destruct (fs w !! path) as [content|] eqn:Hf; simpl.
    + destruct (PIL_open ext content) as [img|e] eqn:Ho; simpl.
      * destruct (verify img) as [[]|e] eqn:Hv; simpl.
        -- exists true. split; [done|]. split; [|done]. intros _.
           exists content. split; [done|]. by exists img.
        -- exists false. split; [done|]. split; [done|].
           intros (c & [= <-] & img' & Ho' & Hv'). congruence.
      * exists false. split; [done|]. split; [done|].
        intros (c & [= <-] & img' & Ho' & Hv'). congruence.
    + exists false. split; [done|]. split; [done|].
      by intros (c & ? & _).
  - intros up. unfold App.is_valid_image_file, App.Image_open_upload. run.
    destruct (PIL_open ext (App.data up)) as [img|e] eqn:Ho; simpl.
    + destruct (verify img) as [[]|e] eqn:Hv; simpl.
      * exists true. split; [done|]. split; [|done]. intros _. by exists img.
      * exists false. split; [done|]. split; [done|].
        intros (img' & Ho' & Hv'). congruence.
    + exists false. split; [done|]. split; [done|].
      intros (img' & Ho' & Hv'). congruence.
Qed.

End Decodable.

(** ** Background remover *)

Section Remover.
Context (ext : externals).

(** X11: when the input exists, the delegate returns and the output can
    be opened for writing (it exists already, or the operating system
    lets it be created), [remove_background] succeeds, the output file
    holds exactly what the delegate returned for the input's bytes, and
    nothing else changes. *)
Lemma remove_background_success (w : world) (input_path output_path : string)
    (content result : list Byte.byte) :
  fs w !! input_path = Some content →
  rembg_remove ext content = Ok result →
  is_Some (fs w !! output_path) ∨ os_create ext output_path = Ok tt →
  BackgroundRemover.remove_background ext input_path output_path w =
  (Ok tt, World (<[output_path := result]> (fs w)) (Segmentation :: trace w)).
Proof.
  intros Hin Hok Hopen. unfold BackgroundRemover.remove_background. run.
  rewrite Hin. rewrite bool_decide_eq_true_2 by eauto. simpl.
  rewrite Hin. simpl. rewrite Hok.
  destruct (fs w !! output_path) as [old|] eqn:Hout.
  - simpl. by rewrite insert_insert_eq.
  - destruct Hopen as [[? [=]]|Hcreate]. rewrite Hcreate. simpl.
    by rewrite insert_insert_eq.
Qed.

(** X28: when the input exists and the delegate returns, but the output
    does not exist and cannot be created, the error of opening it is
    re-raised as an Exception whose message is [Failed to remove
    background: ] followed by that error's message, and no file is
    written. *)
Lemma remove_background_unwritable (w : world)
    (input_path output_path : string) (content result : list Byte.byte)
    (e : exn) :
  fs w !! input_path = Some content →
  rembg_remove ext content = Ok result →
  fs w !! output_path = None →
  os_create ext output_path = Raise e →
  BackgroundRemover.remove_background ext input_path output_path w =
  (Raise (Exn Exception ("Failed to remove background: " +:+ exn_str e)),
   World (fs w) (Segmentation :: trace w)).
Proof.
  intros Hin Hok Hout Hcreate. unfold BackgroundRemover.remove_background. run.
  rewrite Hin. rewrite bool_decide_eq_true_2 by eauto. simpl.
  rewrite Hin. simpl. by rewrite Hok, Hout, Hcreate.
Qed.

(** C8: when [input_path] does not exist, [remove_background] raises
    FileNotFoundError and the file system, hence [output_path], is left
    as it was; when the segmentation delegate fails, its error is
    re-raised as an Exception whose message is [Failed to remove
    background: ] followed by the delegate's message, and again nothing
    is written. *)
Theorem remove_background_failures (w : world)
    (input_path output_path : string) :
  (fs w !! input_path = None →
   BackgroundRemover.remove_background ext input_path output_path w =
   (Raise (Exn FileNotFoundError ("Input file not found: " +:+ input_path)), w))
  ∧ (∀ content e,
       fs w !! input_path = Some content →
       rembg_remove ext content = Raise e →
       ∃ w', BackgroundRemover.remove_background ext input_path output_path w =
             (Raise (Exn Exception
                       ("Failed to remove background: " +:+ exn_str e)), w')
             ∧ fs w' = fs w).
Proof.
  unfold BackgroundRemover.remove_background. split.
  - intros Hin. run. rewrite Hin.
    rewrite bool_decide_eq_false_2 by (by intros [? ?]). done.
  - intros content e Hin Hfail. run. rewrite Hin.
    rewrite bool_decide_eq_true_2 by eauto. simpl.
    rewrite Hin. simpl. rewrite Hfail. eauto.
Qed.

End Remover.

(** ** Rounding *)

Section Rounding.

Lemma round_half_even_close (x : Q) :
  (- (1 # 2) <= inject_Z (PyFloat.round_half_even x) - x <= 1 # 2)%Q.
Proof.
  destruct x as [n d]. unfold PyFloat.round_half_even. simpl Qnum. simpl Qden.
  pose proof (Z.div_mod n (Z.pos d) ltac:(lia)) as Hdm.
  pose proof (Z.mod_pos_bound n (Z.pos d) ltac:(lia)) as Hb.
  set (fl := (n / Z.pos d)%Z) in *. set (r := (n mod Z.pos d)%Z) in *.
  assert (Hcase : ∀ k : Z, (k = fl ∧ 2 * r <= Z.pos d ∨
                             k = fl + 1 ∧ Z.pos d <= 2 * r)%Z →
          (- (1 # 2) <= inject_Z k - (n # d) <= 1 # 2)%Q).
  { intros k Hk. unfold Qle, Qminus, Qplus, Qopp, inject_Z. simpl.
    split; nia. }
  destruct (Z.compare_spec (2 * r) (Z.pos d)) as [He|Hl|Hg].
  - destruct (Z.even fl); apply Hcase; lia.
  - apply Hcase; lia.
  - apply Hcase; lia.
Qed.

Lemma round_2_decimals (x : Q) :
  Spec.rounded_to_2_decimals x (PyFloat.round x 2).
Proof.
  unfold Spec.rounded_to_2_decimals, PyFloat.round.
  change (inject_Z (10 ^ Z.of_nat 2)) with 100%Q.
  set (k := PyFloat.round_half_even (x * 100)).
  split.
  - exists k. apply Qred_correct.
  - rewrite Qred_correct. apply Qabs_Qle_condition.
    pose proof (round_half_even_close (x * 100)) as [Hlo Hhi]. fold k in Hlo, Hhi.
    assert (Heq : (inject_Z k / 100 - x == (inject_Z k - x * 100) / 100)%Q)
      by (field).
    rewrite Heq. split.
    + apply Qle_shift_div_l; [done|].
      eapply Qle_trans; [|exact Hlo]. by vm_compute.
    + apply Qle_shift_div_r; [done|].
      eapply Qle_trans; [exact Hhi|]. by vm_compute.
Qed.

Lemma py_min_Qmin (x y : Q) : PyFloat.min x y = Qmin x y.
Proof.
  unfold PyFloat.min, PyFloat.ltb, Qle_bool, Qmin, GenericMinMax.gmin, Qcompare.
  rewrite Z.leb_compare.
  by destruct (Qnum x * QDen y ?= Qnum y * QDen x)%Z.
Qed.

End Rounding.

(** ** Quality analyzer *)

Section Analyzer.
Context (ext : externals).
Import ImageAnalyzer.

(** What [resolution_score] computes from the size of the image. *)
Lemma resolution_score_run (w : world) (path : string)
    (content : list Byte.byte) (img : pil_image) :
  fs w !! path = Some content →
  PIL_open ext content = Ok img →
  resolution_score ext path w =
  (Ok (PyFloat.round
         (PyFloat.min
            (inject_Z (fst (size img) * snd (size img)) / inject_Z (256 * 256)
             * 100)%Q 100%Q) 2),
   World (fs w) (DecodeAttempt path :: trace w)).
Proof.
  intros Hf Ho. unfold resolution_score, Image_open. run.
  rewrite Hf. rewrite bool_decide_eq_true_2 by eauto. simpl.
  rewrite Hf. simpl. rewrite Ho. simpl. by destruct (size img).
Qed.

Lemma clamped (t : Z) :
  (256 * 256 < t)%Z →
  PyFloat.min (inject_Z t / inject_Z (256 * 256) * 100)%Q 100%Q = 100%Q.
Proof.
  intros Ht. unfold PyFloat.min, PyFloat.ltb, Qle_bool. simpl.
  destruct (Z.leb_spec (t * 1 * 100 * 1) (100 * Z.pos (1 * (256 * 256) * 1)));
    [lia|done].
Qed.

(** C2: for a file whose dimensions can be read, [resolution_score]
    returns min((width*height / (256*256)) * 100, 100) rounded to 2
    decimals; 100.0 for 256x256, 25.0 for 128x128, and 100.0 whenever
    the image has more than 256*256 pixels. *)
Theorem resolution_score_formula (w : world) (path : string)
    (content : list Byte.byte) (img : pil_image) (width height : Z) :
  fs w !! path = Some content →
  PIL_open ext content = Ok img →
  size img = (width, height) →
  ∃ r, fst (resolution_score ext path w) = Ok r
       ∧ Spec.rounded_to_2_decimals (Spec.resolution_formula width height) r
       ∧ (width = 256%Z → height = 256%Z → r = 100%Q)
       ∧ (width = 128%Z → height = 128%Z → r = 25%Q)
       ∧ ((256 * 256 < width * height)%Z → r = 100%Q).
Proof.
  intros Hf Ho Hs. rewrite (resolution_score_run _ _ _ _ Hf Ho), Hs. simpl fst.
  simpl snd. eexists. split; [reflexivity|]. split_and!.
  - unfold Spec.resolution_formula. rewrite <- py_min_Qmin.
    apply round_2_decimals.
  - by intros -> ->.
  - by intros -> ->.
  - intros Ht. by rewrite (clamped _ Ht).
Qed.

(** The three analyses read the file system and log; they never write. *)
Lemma resolution_score_reads (path : string) (w : world) :
  fs (snd (resolution_score ext path w)) = fs w
  ∧ ∀ w', fs w' = fs w →
      fst (resolution_score ext path w') = fst (resolution_score ext path w).
Proof.
  unfold resolution_score, Image_open. run. split.
  - destruct (fs w !! path) as [content|] eqn:Hf; simpl; rewrite ?Hf; simpl;
      [|done].
    destruct (PIL_open ext content) as [img|e]; simpl; [|done].
    by destruct (size img).
  - intros w' Hw. rewrite Hw.
    destruct (fs w !! path) as [content|] eqn:Hf; simpl; rewrite ?Hw, ?Hf; simpl;
      [|done].
    destruct (PIL_open ext content) as [img|e]; simpl; [|done].
    by destruct (size img).
Qed.

Lemma is_blurry_reads (path : string) (threshold : Q) (w : world) :
  fs (snd (is_blurry ext path threshold w)) = fs w
  ∧ ∀ w', fs w' = fs w →
      fst (is_blurry ext path threshold w') = fst (is_blurry ext path threshold w).
Proof.
  unfold is_blurry, cv2_imread_gray. run. split.
  - destruct (fs w !! path) as [content|] eqn:Hf; simpl; rewrite ?Hf; simpl;
      [|done].
    by destruct (cv2_imdecode_gray ext content).
  - intros w' Hw. rewrite Hw.
    destruct (fs w !! path) as [content|] eqn:Hf; simpl; rewrite ?Hw, ?Hf; simpl;
      [|done].
    by destruct (cv2_imdecode_gray ext content).
Qed.

Lemma blur_score_reads (path : string) (w : world) :
  fs (snd (blur_score ext path w)) = fs w
  ∧ ∀ w', fs w' = fs w →
      fst (blur_score ext path w') = fst (blur_score ext path w).
Proof.
  unfold blur_score, cv2_imread_gray. run. split.
  - destruct (fs w !! path) as [content|] eqn:Hf; simpl; rewrite ?Hf; simpl;
      [|done].
    by destruct (cv2_imdecode_gray ext content).
  - intros w' Hw. rewrite Hw.
    destruct (fs w !! path) as [content|] eqn:Hf; simpl; rewrite ?Hw, ?Hf; simpl;
      [|done].
    by destruct (cv2_imdecode_gray ext content).
Qed.

(** What the two blur analyses compute from the Laplacian variance. *)
Lemma blur_run (w : world) (path : string) (content : list Byte.byte)
    (image : list (list Z)) (threshold : Q) :
  fs w !! path = Some content →
  cv2_imdecode_gray ext content = Some image →
  fst (is_blurry ext path threshold w) =
    Ok (PyFloat.ltb (Laplacian_var ext image) threshold)
  ∧ fst (blur_score ext path w) = Ok (PyFloat.round (Laplacian_var ext image) 2).
Proof.
  intros Hf Hd. unfold is_blurry, blur_score, cv2_imread_gray. run.
  rewrite Hf. rewrite bool_decide_eq_true_2 by eauto. simpl.
  rewrite ?Hf. simpl. by rewrite Hd.
Qed.

Lemma ltb_lt (x y : Q) : PyFloat.ltb x y = true ↔ (x < y)%Q.
Proof.
  unfold PyFloat.ltb. rewrite negb_true_iff, <- not_true_iff_false, Qle_bool_iff.
  split; [apply Qnot_le_lt|apply Qlt_not_le].
Qed.

(** C3 (as amended): for a decodable image, [is_blurry] returns true
    exactly when the Laplacian variance of the image is below the
    threshold, and [blur_score] returns that same variance rounded to 2
    decimals. *)
Theorem is_blurry_iff_variance_below (w : world) (path : string)
    (content : list Byte.byte) (image : list (list Z)) (threshold : Q) :
  fs w !! path = Some content →
  cv2_imdecode_gray ext content = Some image →
  ∃ b s, fst (is_blurry ext path threshold w) = Ok b
         ∧ fst (blur_score ext path w) = Ok s
         ∧ (b = true ↔ (Laplacian_var ext image < threshold)%Q)
         ∧ s = PyFloat.round (Laplacian_var ext image) 2
         ∧ Spec.rounded_to_2_decimals (Laplacian_var ext image) s.
Proof.
  intros Hf Hd. destruct (blur_run w path content image threshold Hf Hd) as [Hb Hs].
  eexists _, _. split_and!; [exact Hb|exact Hs|apply ltb_lt|done|].
  apply round_2_decimals.
Qed.

Ltac generic := split; [done|by eexists (Exn Exception _)].

(** The outcome of [analyze_image_quality], by cases: either it returns
    the dict built from the three analyses of a decodable file, or it
    raises the generic exception because one of the steps failed. *)
Lemma analyze_image_quality_cases (w : world) (path : string) :
  match fst (analyze_image_quality ext path w) with
  | Ok r =>
      (∃ content, fs w !! path = Some content ∧ Spec.decodable ext content)
      ∧ ∃ b rs bs,
          fst (is_blurry ext path default_threshold w) = Ok b
          ∧ fst (resolution_score ext path w) = Ok rs
          ∧ fst (blur_score ext path w) = Ok bs
          ∧ r = <["resolution_score" := VFloat rs]>
                (<["is_blurry" := VBool b]>
                (<["blur_score" := VFloat bs]>
                (<["clarity" := VStr (if negb b then "Clear" else "Blurry")]>
                 ∅)))
  | Raise e =>
      (exn_cls e = Exception
       ∧ ∃ e0, exn_str e = "Image quality analysis failed: " +:+ exn_str e0)
      ∧ (¬ (∃ content, fs w !! path = Some content ∧ Spec.decodable ext content)
         ∨ (∃ e0, fst (is_blurry ext path default_threshold w) = Raise e0)
         ∨ (∃ e0, fst (resolution_score ext path w) = Raise e0)
         ∨ (∃ e0, fst (blur_score ext path w) = Raise e0))
  end.
Proof.
  unfold analyze_image_quality, Image_open. run.
  destruct (fs w !! path) as [content|] eqn:Hf; simpl.
  2:{ split; [generic|]. left. by intros (c & ? & _). }
  destruct (PIL_open ext content) as [img|e] eqn:Ho; simpl.
  2:{ split; [generic|]. left. intros (c & [= <-] & img & ? & _). congruence. }
  destruct (verify img) as [[]|e] eqn:Hv; simpl.
  2:{ split; [generic|]. left. intros (c & [= <-] & img' & ? & ?). congruence. }
  set (w1 := {| fs := fs w; trace := DecodeAttempt path :: trace w |}).
  pose proof (is_blurry_reads path default_threshold w1) as [Hb1 _].
  pose proof (is_blurry_reads path default_threshold w) as [_ Hb2].
  specialize (Hb2 w1 eq_refl).
  destruct (is_blurry ext path default_threshold w1) as [[b|e] w2] eqn:Hb;
    simpl in *.
  2:{ split; [generic|]. right. left. eauto. }
  pose proof (resolution_score_reads path w2) as [Hr1 _].
  pose proof (resolution_score_reads path w) as [_ Hr2].
  specialize (Hr2 w2 Hb1).
  destruct (resolution_score ext path w2) as [[rs|e] w3] eqn:Hr; simpl in *.
  2:{ split; [generic|]. right. right. left. eauto. }
  pose proof (blur_score_reads path w) as [_ Hs2].
  specialize (Hs2 w3 ltac:(congruence)).
  destruct (blur_score ext path w3) as [[bs|e] w4] eqn:Hs; simpl in *.
  2:{ split; [generic|]. right. right. right. eauto. }
  split.
  - exists content. split; [done|]. by exists img.
  - exists b, rs, bs. by rewrite <- Hb2, <- Hr2, <- Hs2.
Qed.

(** C4: [analyze_image_quality] verifies decodability first: on a file
    that is missing or does not decode it raises after that single
    decode attempt.  When it returns, the file decodes and the dict holds
    under [resolution_score], [is_blurry] and [blur_score] what
    [resolution_score], [is_blurry] at the default threshold 100.0 and
    [blur_score] return for that path, and under [clarity] the label
    Clear exactly when [is_blurry] is false and Blurry exactly when it is
    true.  It does return whenever the file decodes and the three
    analyses succeed. *)
Theorem analyze_image_quality_composition (w : world) (path : string) :
  (¬ (∃ content, fs w !! path = Some content ∧ Spec.decodable ext content) →
   ∃ e, analyze_image_quality ext path w =
        (Raise e, World (fs w) (DecodeAttempt path :: trace w)))
  ∧ (∀ r, fst (analyze_image_quality ext path w) = Ok r →
       (∃ content, fs w !! path = Some content ∧ Spec.decodable ext content)
       ∧ ∃ b rs bs,
           fst (is_blurry ext path 100%Q w) = Ok b
           ∧ fst (resolution_score ext path w) = Ok rs
           ∧ fst (blur_score ext path w) = Ok bs
           ∧ r !! "resolution_score" = Some (VFloat rs)
           ∧ r !! "is_blurry" = Some (VBool b)
           ∧ r !! "blur_score" = Some (VFloat bs)
           ∧ (r !! "clarity" = Some (VStr "Clear") ↔ b = false)
           ∧ (r !! "clarity" = Some (VStr "Blurry") ↔ b = true))
  ∧ (∀ b rs bs,
       (∃ content, fs w !! path = Some content ∧ Spec.decodable ext content) →
       fst (is_blurry ext path 100%Q w) = Ok b →
       fst (resolution_score ext path w) = Ok rs →
       fst (blur_score ext path w) = Ok bs →
       ∃ r, fst (analyze_image_quality ext path w) = Ok r).
Proof.
  split_and!.
  - intros Hnot. unfold analyze_image_quality, Image_open. run.
    destruct (fs w !! path) as [content|] eqn:Hf; simpl; [|eauto].
    destruct (PIL_open ext content) as [img|e] eqn:Ho; simpl; [|eauto].
    destruct (verify img) as [[]|e] eqn:Hv; simpl; [|eauto].
    destruct Hnot. exists content. split; [done|]. by exists img.
  - intros r Hr. pose proof (analyze_image_quality_cases w path) as H.
    rewrite Hr in H. destruct H as [Hdec (b & rs & bs & Hb & Hrs & Hbs & ->)].
    split; [done|]. exists b, rs, bs. split_and!; try done.
    + rewrite !lookup_insert_ne by done. rewrite lookup_insert_eq.
      destruct b; simpl; split; congruence.
    + rewrite !lookup_insert_ne by done. rewrite lookup_insert_eq.
      destruct b; simpl; split; congruence.
  - intros b rs bs Hdec Hb Hrs Hbs.
    pose proof (analyze_image_quality_cases w path) as H.
    destruct (fst (analyze_image_quality ext path w)) as [r|e]; [eauto|].
    destruct H as [_ [H|[[e0 H]|[[e0 H]|[e0 H]]]]]; [done|..];
      unfold default_threshold in *; congruence.
Qed.

(** C10: whenever a step of the analysis fails, be it opening or
    verifying the file or one of the three analyses,
    [analyze_image_quality] raises; whatever it raises is a plain
    Exception whose message begins with [Image quality analysis failed].
    For a missing file [resolution_score] and [is_blurry] raise
    FileNotFoundError, but [analyze_image_quality] still raises the plain
    Exception, never FileNotFoundError. *)
Theorem analyze_image_quality_failure_is_generic (w : world) (path : string) :
  (∀ e, fst (analyze_image_quality ext path w) = Raise e →
     exn_cls e = Exception
     ∧ PyStr.startswith "Image quality analysis failed" (exn_str e) = true)
  ∧ ((¬ (∃ content, fs w !! path = Some content ∧ Spec.decodable ext content)
      ∨ (∃ e0, fst (is_blurry ext path 100%Q w) = Raise e0)
      ∨ (∃ e0, fst (resolution_score ext path w) = Raise e0)
      ∨ (∃ e0, fst (blur_score ext path w) = Raise e0)) →
     ∃ e, fst (analyze_image_quality ext path w) = Raise e)
  ∧ (fs w !! path = None →
     (∃ msg, fst (resolution_score ext path w) = Raise (Exn FileNotFoundError msg))
     ∧ (∀ threshold, ∃ msg,
          fst (is_blurry ext path threshold w) = Raise (Exn FileNotFoundError msg))
     ∧ ∃ msg, fst (analyze_image_quality ext path w) = Raise (Exn Exception msg)).
Proof.
  pose proof (analyze_image_quality_cases w path) as H.
  split_and!.
  - intros e He. rewrite He in H. destruct H as [[Hc [e0 Hm]] _].
    split; [done|]. by rewrite Hm.
  - intros Hfail.
    destruct (fst (analyze_image_quality ext path w)) as [r|e]; [|eauto].
    destruct H as [Hdec (b & rs & bs & Hb & Hrs & Hbs & _)].
    unfold default_threshold in *.
    destruct Hfail as [Hn|[[e0 Hn]|[[e0 Hn]|[e0 Hn]]]]; [done|congruence..].
  - intros Hf. split_and!.
    + unfold resolution_score. run. rewrite Hf.
      rewrite bool_decide_eq_false_2 by (by intros [? ?]). simpl. eauto.
    + intros threshold. unfold is_blurry. run. rewrite Hf.
      rewrite bool_decide_eq_false_2 by (by intros [? ?]). simpl. eauto.
    + destruct (fst (analyze_image_quality ext path w)) as [r|[c msg]].
      * destruct H as [(content & ? & _) _]. congruence.
      * destruct H as [[Hc _] _]. simpl in Hc. subst c. eauto.
Qed.

End Analyzer.

(** ** Which files a computation may change *)

Section Touches.
Context {A B : Type}.
Implicit Types (paths : list string).

Lemma touches_ret paths (a : A) : touches_only paths (mret a).
Proof. by intros w q _. Qed.

Lemma touches_raise paths c msg : touches_only paths (@raise A c msg).
Proof. by intros w q _. Qed.

Lemma touches_lift paths (r : result A) : touches_only paths (lift r).
Proof. by intros w q _. Qed.

Lemma touches_bind paths (m : M A) (k : A → M B) :
  touches_only paths m → (∀ a, touches_only paths (k a)) →
  touches_only paths (m ≫= k).
Proof.
  intros Hm Hk w q Hq. specialize (Hm w q Hq). run.
  destruct (m w) as [[a|e] w1]; simpl in *; [|done].
  by rewrite (Hk a w1 q Hq).
Qed.

Lemma touches_try_except paths (m : M A) (h : exn → M A) :
  touches_only paths m → (∀ e, touches_only paths (h e)) →
  touches_only paths (try_except m h).
Proof.
  intros Hm Hh w q Hq. specialize (Hm w q Hq). run.
  destruct (m w) as [[a|e] w1]; simpl in *; [done|].
  by rewrite (Hh e w1 q Hq).
Qed.

Lemma touches_try_finally paths (m : M A) (fin : M unit) :
  touches_only paths m → touches_only paths fin →
  touches_only paths (try_finally m fin).
Proof.
  intros Hm Hf w q Hq. specialize (Hm w q Hq). run.
  destruct (m w) as [r w1]; simpl in *. specialize (Hf w1 q Hq).
  destruct (fin w1) as [[[]|e] w2]; simpl in *; congruence.
Qed.

End Touches.

Lemma touches_log paths e : touches_only paths (log e).
Proof. by intros w q _. Qed.

Lemma touches_exists paths p : touches_only paths (os_path_exists p).
Proof. by intros w q _. Qed.

Lemma touches_read paths enoent p : touches_only paths (read_file enoent p).
Proof. intros w q _. run. by destruct (fs w !! p). Qed.

Lemma touches_lookup paths p : touches_only paths (lookup_file p).
Proof. by intros w q _. Qed.

Lemma touches_write paths p data : p ∈ paths → touches_only paths (write_file p data).
Proof.
  intros Hp w q Hq. run. apply lookup_insert_ne. by intros ->.
Qed.

Lemma touches_open paths create p :
  p ∈ paths → touches_only paths (open_wb create p).
Proof.
  intros Hp w q Hq. run.
  destruct (fs w !! p); simpl; [|destruct (create p); simpl; [|done]];
    apply lookup_insert_ne; by intros ->.
Qed.

Lemma touches_unlink paths enoent p :
  p ∈ paths → touches_only paths (os_unlink enoent p).
Proof.
  intros Hp w q Hq. run. destruct (fs w !! p); simpl; [|done].
  apply lookup_delete_ne. by intros ->.
Qed.

Lemma touches_request_files paths req :
  touches_only paths (Main.request_files req).
Proof.
  intros w q _. unfold Main.request_files.
  by destruct (Main.MAX_CONTENT_LENGTH <? Main.content_length req)%Z.
Qed.

(** [request.files] of a request within the size cap: its parts. *)
Lemma request_files_within (req : Main.request) (w : world) :
  (Main.content_length req ≤ Main.MAX_CONTENT_LENGTH)%Z →
  Main.request_files req w = (Ok (Main.files req), w).
Proof.
  intros H. unfold Main.request_files.
  by rewrite (proj2 (Z.ltb_ge _ _) H).
Qed.

(** [request.files] of a request above the size cap: the 413 error. *)
Lemma request_files_over (req : Main.request) (w : world) :
  (Main.MAX_CONTENT_LENGTH < Main.content_length req)%Z →
  Main.request_files req w =
  (Raise (Exn LibraryError
     "413 Request Entity Too Large: The data value transmitted exceeds the capacity limit."),
   w).
Proof.
  intros H. unfold Main.request_files.
  by rewrite (proj2 (Z.ltb_lt _ _) H).
Qed.

(** A computation that touches no file leaves the file system as it is. *)
Lemma touches_nothing {A} (m : M A) (w : world) :
  touches_only [] m → fs (snd (m w)) = fs w.
Proof. intros H. apply map_eq. intros q. apply H. apply not_elem_of_nil. Qed.

Ltac touches :=
  repeat first
    [ apply touches_ret | apply touches_raise | apply touches_lift
    | apply touches_log | apply touches_exists | apply touches_read
    | apply touches_lookup | apply touches_request_files
    | apply touches_write; set_solver
    | apply touches_open; set_solver
    | apply touches_unlink; set_solver
    | apply touches_bind; [|intros ?]
    | apply touches_try_except; [|intros ?]
    | apply touches_try_finally
    | match goal with
      | |- touches_only _ (if ?b then _ else _) => destruct b
      | |- touches_only _ (match ?x with _ => _ end) => destruct x
      end ].

(** ** Request handlers *)

Section Handlers.
Context (ext : externals).

Lemma touches_Image_open paths p : touches_only paths (Image_open ext p).
Proof. unfold Image_open. touches. Qed.

Lemma touches_imread paths p : touches_only paths (cv2_imread_gray ext p).
Proof. unfold cv2_imread_gray. touches. Qed.

Lemma touches_analyze paths p :
  touches_only paths (ImageAnalyzer.analyze_image_quality ext p).
Proof.
  unfold ImageAnalyzer.analyze_image_quality, ImageAnalyzer.is_blurry,
    ImageAnalyzer.resolution_score, ImageAnalyzer.blur_score.
  pose proof touches_Image_open. pose proof touches_imread.
  touches; done.
Qed.

Lemma touches_is_valid_image paths p :
  touches_only paths (Main.is_valid_image ext p).
Proof. unfold Main.is_valid_image. pose proof touches_Image_open. touches; done. Qed.

Lemma touches_remove_background paths input_path output_path :
  output_path ∈ paths →
  touches_only paths
    (BackgroundRemover.remove_background ext input_path output_path).
Proof. intros H. unfold BackgroundRemover.remove_background. touches. Qed.

Lemma app_length_nat (s t : string) :
  String.length (s +:+ t) = (String.length s + String.length t)%nat.
Proof.
  induction s as [|c s IH]; rewrite ?app_nil, ?app_cons; simpl;
    [done|by rewrite IH].
Qed.

Lemma app_inj_suffix (suffix s t : string) :
  s +:+ suffix = t +:+ suffix → s = t.
Proof.
  revert t. induction s as [|c s IH]; intros [|d t] H;
    rewrite ?app_nil, ?app_cons in H.
  - done.
  - apply (f_equal String.length) in H. simpl in H.
    rewrite app_length_nat in H. lia.
  - apply (f_equal String.length) in H. simpl in H.
    rewrite app_length_nat in H. lia.
  - injection H as Hc Ht. subst d. f_equal. by apply IH.
Qed.

Lemma temp_name_inj (suffix : string) (n m : nat) :
  temp_name suffix n = temp_name suffix m → n = m.
Proof.
  unfold temp_name. intros H.
  apply (inj (String.app "/tmp/tmp")) in H.
  apply app_inj_suffix in H. by apply (inj pretty) in H.
Qed.

Lemma first_free_index (files : gmap string (list Byte.byte))
    (suffix : string) (fuel n : nat) :
  ∃ m, (n ≤ m)%nat ∧ first_free files suffix fuel n = temp_name suffix m.
Proof.
  revert n. induction fuel as [|fuel IH]; intros n; simpl; [by exists n|].
  destruct (files !! temp_name suffix n); [|by exists n].
  destruct (IH (S n)) as (m & Hm & ->). exists m. split; [lia|done].
Qed.

Lemma first_free_ext (files files' : gmap string (list Byte.byte))
    (suffix : string) (fuel n : nat) :
  (∀ m, (n ≤ m)%nat →
        files !! temp_name suffix m = files' !! temp_name suffix m) →
  first_free files suffix fuel n = first_free files' suffix fuel n.
Proof.
  revert n. induction fuel as [|fuel IH]; intros n H; simpl; [done|].
  rewrite <- (H n) by done.
  destruct (files !! temp_name suffix n); [|done].
  apply IH. intros m Hm. apply H. lia.
Qed.

Lemma first_free_fresh (suffix : string) (fuel : nat) :
  ∀ (files : gmap string (list Byte.byte)) (n : nat),
    (base.size files ≤ fuel)%nat →
    files !! first_free files suffix fuel n = None.
Proof.
  induction fuel as [|fuel IH]; intros files n Hsize; simpl.
  - assert (files = ∅) as -> by (apply map_size_empty_inv; lia). done.
  - destruct (files !! temp_name suffix n) as [data|] eqn:Hn; [|done].
    set (files' := delete (temp_name suffix n) files).
    assert (Hsame : ∀ m, (S n ≤ m)%nat →
              files !! temp_name suffix m = files' !! temp_name suffix m).
    { intros m Hm. unfold files'. rewrite lookup_delete_ne; [done|].
      intros Heq%temp_name_inj. lia. }
    rewrite (first_free_ext files files' suffix fuel (S n) Hsame).
    destruct (first_free_index files' suffix fuel (S n)) as (m & Hm & Heq).
    rewrite Heq, (Hsame m Hm), <- Heq. apply IH. unfold files'.
    rewrite map_size_delete_Some by eauto. lia.
Qed.

Lemma fresh_temp_name_fresh (suffix : string)
    (files : gmap string (list Byte.byte)) :
  files !! fresh_temp_name suffix files = None.
Proof. by apply first_free_fresh. Qed.


(** The guarded removal of the [finally] blocks. *)
Lemma unlink_if_exists (p : string) (w : world) :
  (found ← os_path_exists p;
   if (found : bool) then os_unlink (enoent_message ext) p else mret tt) w =
  (Ok tt, World (delete p (fs w)) (trace w)).
Proof.
  run. destruct (fs w !! p) as [data|] eqn:Hp; simpl; rewrite ?Hp; [done|].
  rewrite delete_id by done. by destruct w.
Qed.

(** X21: [analyze_image] leaves no file behind: whatever the request
    and whatever the outcome, the file system is as it was. *)
Lemma analyze_image_leaves_no_file (req : Main.request) (w : world) :
  fs (snd (Main.analyze_image ext req w)) = fs w.
Proof.
  unfold Main.analyze_image, try_except at 1.
  match goal with
  | |- context [match ?m w with _ => _ end] =>
      assert (Hm : fs (snd (m w)) = fs w);
        [|by destruct (m w) as [[r|e] w1]]
  end.
  unfold mbind at 1, M_bind, bind at 1.
  destruct (Z.ltb_spec Main.MAX_CONTENT_LENGTH (Main.content_length req)).
  { by rewrite request_files_over. }
  rewrite request_files_within by done.
  destruct (Main.files req !! "image") as [file|]; [|done].
  destruct (String.eqb (Main.filename file) ""); [done|].
  unfold mbind, M_bind, bind at 1, lift.
  destruct (Main.allowed_file (Main.filename file)) as [[]|e]; [|done..].
  simpl negb. cbv iota. unfold bind at 1, bind at 1, NamedTemporaryFile.
  set (name := fresh_temp_name ".jpg" (fs w)).
  pose proof (fresh_temp_name_fresh ".jpg" (fs w)) as Hfresh. fold name in Hfresh.
  unfold bind at 1, write_file at 1. simpl.
  unfold try_finally.
  match goal with
  | |- context [match ?m ?w1 with _ => _ end] =>
      assert (Hb : fs (snd (m w1)) = fs w1);
        [|destruct (m w1) as [r w2]]
  end.
  { apply touches_nothing. pose proof touches_is_valid_image.
    pose proof touches_analyze. touches; done. }
  pose proof (unlink_if_exists name w2) as Hu. unfold mbind, M_bind in Hu.
  fold name in Hb |- *. rewrite Hu. simpl in *. rewrite Hb.
  rewrite delete_insert_eq, delete_insert_eq. by apply delete_id.
Qed.

(** The [finally] block of the UI: both temporary files are removed. *)
Lemma unlink_both_if_exist (p1 p2 : string) (w : world) :
  (found ← os_path_exists p1;
   _ ← (if (found : bool) then os_unlink (enoent_message ext) p1 else mret tt);
   found ← os_path_exists p2;
   if (found : bool) then os_unlink (enoent_message ext) p2 else mret tt) w =
  (Ok tt, World (delete p2 (delete p1 (fs w))) (trace w)).
Proof.
  run. destruct (fs w !! p1) as [data|] eqn:Hp; simpl; rewrite ?Hp; simpl.
  - destruct (delete p1 (fs w) !! p2) as [data2|] eqn:Hq; simpl; rewrite ?Hq;
      [done|].
    by rewrite (delete_id _ p2).
  - rewrite (delete_id (fs w) p1) by done.
    destruct (fs w !! p2) as [data2|] eqn:Hq; simpl; rewrite ?Hq; [done|].
    rewrite (delete_id _ p2) by done. by destruct w.
Qed.

(** Staging two temporary files, running [body] on them and removing
    both afterwards changes no file, provided [body] itself writes
    nothing but the two. *)
Lemma staged_and_cleaned {A} (body : string → string → M A) :
  (∀ inp out, touches_only [inp; out] (body inp out)) →
  touches_only []
    (input_temp ← NamedTemporaryFile ".jpg";
     output_temp ← NamedTemporaryFile ".png";
     try_finally (body input_temp output_temp)
       (found ← os_path_exists input_temp;
        _ ← (if (found : bool) then os_unlink (enoent_message ext) input_temp else mret tt);
        found ← os_path_exists output_temp;
        if (found : bool) then os_unlink (enoent_message ext) output_temp else mret tt)).
Proof.
  intros Hbody w q _.
  unfold mbind at 1 2, M_bind, bind at 1 2, NamedTemporaryFile. simpl.
  set (inp := fresh_temp_name ".jpg" (fs w)).
  pose proof (fresh_temp_name_fresh ".jpg" (fs w)) as Hinp. fold inp in Hinp.
  set (out := fresh_temp_name ".png" (<[inp:=[]]> (fs w))).
  pose proof (fresh_temp_name_fresh ".png" (<[inp:=[]]> (fs w))) as Hout.
  fold out in Hout.
  set (w2 := {| fs := <[out:=[]]> (<[inp:=[]]> (fs w)); trace := _ |}).
  unfold try_finally. specialize (Hbody inp out w2 q).
  destruct (body inp out w2) as [r w3]. rewrite unlink_both_if_exist.
  simpl in *.
  destruct (decide (q = out)) as [->|Hqo].
  { rewrite lookup_delete_eq. apply lookup_insert_None in Hout as [? _]. done. }
  rewrite lookup_delete_ne by done.
  destruct (decide (q = inp)) as [->|Hqi].
  { by rewrite lookup_delete_eq. }
  rewrite lookup_delete_ne by done.
  assert (Hq : q ∉ [inp; out]).
  { rewrite !not_elem_of_cons. split_and!; [done..|apply not_elem_of_nil]. }
  rewrite (Hbody Hq).
  by rewrite !lookup_insert_ne.
Qed.

Lemma touches_is_valid_image_file paths uploaded_file :
  touches_only paths (App.is_valid_image_file ext uploaded_file).
Proof.
  unfold App.is_valid_image_file, App.Image_open_upload. touches.
Qed.

(** X20: the UI's background-removal page leaves no file behind:
    whatever the upload and whatever the outcome, every temporary file it
    created is gone and the file system is as it was. *)
Lemma show_background_removal_leaves_no_file (available : bool)
    (uploaded_file : option App.UploadedFile) (button : bool) (w : world) :
  fs (snd (App.show_background_removal ext available uploaded_file button w))
  = fs w.
Proof.
  apply touches_nothing. unfold App.show_background_removal.
  destruct (negb available); [touches|].
  destruct uploaded_file as [uploaded_file|]; [|touches].
  apply touches_bind; [touches|]. intros valid_ext.
  destruct (negb valid_ext); [touches|].
  apply touches_bind.
  { unfold App.Image_open_upload, App.st_image. touches. }
  intros shown. destruct (negb shown); [touches|].
  destruct (negb button); [touches|].
  apply touches_try_except; [|intros e; touches].
  apply touches_bind; [apply touches_is_valid_image_file|]. intros valid.
  destruct (negb valid); [touches|].
  apply (staged_and_cleaned (λ input_temp output_temp, _)).
  intros inp out. unfold App.remove_background, App.st_image.
  pose proof touches_Image_open.
  pose proof (touches_remove_background [inp; out] inp out ltac:(set_solver)).
  touches; done.
Qed.

Lemma remove_background_keeps (input_path output_path q : string) (w : world) :
  is_Some (fs w !! q) →
  is_Some (fs (snd (BackgroundRemover.remove_background ext input_path
                      output_path w)) !! q).
Proof.
  intros Hq. unfold BackgroundRemover.remove_background. run.
  destruct (fs w !! input_path) as [content|] eqn:Hin; simpl; rewrite ?Hin;
    simpl; [|done].
  destruct (rembg_remove ext content) as [result|e]; simpl; [|done].
  destruct (fs w !! output_path) as [old|]; simpl;
    [|destruct (os_create ext output_path) as [[]|e]; simpl; [|done]];
    rewrite !lookup_insert; by repeat case_decide.
Qed.

(** X17: on a request within the size cap, the API's background-removal
    handler, once it has staged the upload, exits with the output
    temporary file still on disk: the name was free before the request
    and names a file after it.  Everything else, the input temporary file
    included, is as before the request. *)
Lemma remove_bg_leaves_output_temp (req : Main.request)
    (file : Main.FileStorage) (w : world) :
  (Main.content_length req ≤ Main.MAX_CONTENT_LENGTH)%Z →
  Main.files req !! "image" = Some file →
  Main.filename file ≠ "" →
  Main.allowed_file (Main.filename file) = Ok true →
  let input_temp := fresh_temp_name ".jpg" (fs w) in
  let output_temp := fresh_temp_name ".png" (<[input_temp:=[]]> (fs w)) in
  let w' := snd (Main.remove_bg ext req w) in
  fs w !! output_temp = None
  ∧ is_Some (fs w' !! output_temp)
  ∧ ∀ q, q ≠ output_temp → fs w' !! q = fs w !! q.
Proof.
  intros Hcap Hfile Hname Hext inp out. apply String.eqb_neq in Hname.
  pose proof (fresh_temp_name_fresh ".jpg" (fs w)) as Hinp. fold inp in Hinp.
  pose proof (fresh_temp_name_fresh ".png" (<[inp:=[]]> (fs w))) as Hout.
  fold out in Hout. apply lookup_insert_None in Hout as [Hout Hne].
  assert (Hrun : ∃ fs3 : gmap string (list Byte.byte),
            is_Some (fs3 !! out)
            ∧ (∀ q, q ∉ [inp; out] →
                 fs3 !! q = <[out:=[]]> (<[inp:=[]]> (fs w)) !! q)
            ∧ fs (snd (Main.remove_bg ext req w)) = delete inp fs3).
  { unfold Main.remove_bg, try_except at 1.
    unfold mbind at 1, M_bind, bind at 1.
    rewrite request_files_within by done. rewrite Hfile, Hname.
    unfold mbind at 1, M_bind, bind at 1, lift. rewrite Hext. simpl negb.
    cbv iota. unfold mbind at 1 2, bind at 1 2, NamedTemporaryFile. simpl.
    fold inp. fold out.
    set (w2 := {| fs := <[out:=[]]> (<[inp:=[]]> (fs w)); trace := _ |}).
    unfold try_finally.
    match goal with
    | |- context [match ?m w2 with _ => _ end] =>
        assert (Hbody : is_Some (fs (snd (m w2)) !! out)
                        ∧ touches_only [inp; out] m);
          [|destruct Hbody as [Hkeep Hrest]; specialize (Hrest w2);
            destruct (m w2) as [r w3]]
    end.
    { split.
      - unfold mbind at 1, bind at 1, write_file at 1. simpl.
        set (w3 := {| fs := <[inp:=Main.stream file]> _; trace := _ |}).
        assert (H3 : is_Some (fs w3 !! out)).
        { simpl. rewrite lookup_insert_ne by done. by rewrite lookup_insert_eq. }
        unfold mbind at 1, bind at 1.
        pose proof (touches_nothing _ w3 (touches_is_valid_image [] inp)) as H4.
        destruct (Main.is_valid_image ext inp w3) as [[[]|e] w4];
          simpl in H4 |- *; [|by rewrite H4..].
        unfold mbind at 1, bind at 1.
        pose proof (remove_background_keeps inp out out w4) as H5.
        rewrite H4 in H5. specialize (H5 H3).
        destruct (BackgroundRemover.remove_background ext inp out w4)
          as [[[]|e] w5]; simpl in H5 |- *; [|done].
        match goal with
        | |- context [Main.send_file ext ?a ?b ?c w5] =>
            rewrite (touches_nothing (Main.send_file ext a b c) w5)
        end; [done|]. unfold Main.send_file. touches.
      - pose proof touches_is_valid_image.
        pose proof (touches_remove_background [inp; out] inp out
                      ltac:(set_solver)).
        unfold Main.send_file. touches; done. }
    simpl in Hkeep, Hrest.
    pose proof (unlink_if_exists inp w3) as Hu. unfold M_bind in Hu.
    rewrite Hu. exists (fs w3). split_and!; [done..|]. by destruct r. }
  destruct Hrun as (fs3 & Hkeep & Hrest & Hfs). cbv zeta. rewrite Hfs.
  split_and!.
  - done.
  - by rewrite lookup_delete_ne.
  - intros q Hq. destruct (decide (q = inp)) as [->|Hqi].
    { by rewrite lookup_delete_eq. }
    rewrite lookup_delete_ne by done.
    rewrite Hrest
      by (rewrite !not_elem_of_cons; split_and!; [done..|apply not_elem_of_nil]).
    by rewrite !lookup_insert_ne.
Qed.


End Handlers.

(** ** Concrete runs *)

Section Runs.
Import Sample.

(** C1 (code defect, API handler [remove_bg]): a request that uploads
    undecodable bytes under an allowed name reaches the staged state,
    two temporary files having been created, and is answered 400; the
    input temporary file is removed, but the output temporary file is
    still on disk when the handler exits. *)
Theorem remove_bg_leaks_output_temp :
  Main.remove_bg ext (upload "photo.jpg" junk) empty_world =
  (Ok (Main.Json {[ "error" := VStr "File is not a valid image" ]} 400),
   World {[ "/tmp/tmp0.png" := [] ]}
     [DecodeAttempt "/tmp/tmp0.jpg"; TempCreated "/tmp/tmp0.png";
      TempCreated "/tmp/tmp0.jpg"])
  ∧ fs (snd (Main.remove_bg ext (upload "photo.jpg" junk) empty_world))
      !! "/tmp/tmp0.png" = Some [].
Proof. split; by vm_compute. Qed.

(** The same upload through the UI: both temporary files are gone. *)
Lemma show_background_removal_run :
  App.show_background_removal ext true
    (Some {| App.name := "photo.jpg"; App.data := soft_file |}) true
    empty_world =
  (Ok tt,
   World ∅
     [StSuccess "Background removal completed!";
      StDownload soft_file "no_bg_photo.png";
      StImage "Background Removed"; DecodeAttempt "/tmp/tmp0.png";
      Segmentation; TempCreated "/tmp/tmp0.png"; TempCreated "/tmp/tmp0.jpg";
      DecodeAttempt "photo.jpg"; StImage "photo.jpg";
      DecodeAttempt "photo.jpg"]).
Proof. by vm_compute. Qed.

(** A successful background removal through the API also leaves the
    output temporary file behind. *)
Lemma remove_bg_success_run :
  Main.remove_bg ext (upload "photo.jpg" soft_file) empty_world =
  (Ok (Main.SendFile "/tmp/tmp0.png" soft_file "no_bg_photo.jpg.png"
         "image/png"),
   World {[ "/tmp/tmp0.png" := soft_file ]}
     [Segmentation; DecodeAttempt "/tmp/tmp0.jpg"; TempCreated "/tmp/tmp0.png";
      TempCreated "/tmp/tmp0.jpg"]).
Proof. by vm_compute. Qed.

(** The reference image scores 100.0 and an 8x4 image 0.05. *)
Lemma resolution_score_runs :
  fst (ImageAnalyzer.resolution_score ext "a.img"
         (world_with "a.img" header_256)) = Ok 100%Q
  ∧ fst (ImageAnalyzer.resolution_score ext "a.img"
           (world_with "a.img" soft_file)) = Ok (1 # 20)%Q.
Proof. split; by vm_compute. Qed.

(** Witness of C2: a 128x128 image scores 25.0. *)
Lemma resolution_score_formula_witness :
  ∃ r, fst (ImageAnalyzer.resolution_score ext "a.img"
              (world_with "a.img" header_128)) = Ok r
       ∧ Spec.rounded_to_2_decimals (Spec.resolution_formula 128 128) r
       ∧ (128%Z = 256%Z → 128%Z = 256%Z → r = 100%Q)
       ∧ (128%Z = 128%Z → 128%Z = 128%Z → r = 25%Q)
       ∧ ((256 * 256 < 128 * 128)%Z → r = 100%Q).
Proof.
  eapply (resolution_score_formula ext (world_with "a.img" header_128) "a.img"
            header_128); reflexivity.
Defined.

(** Counterexample to C3 as stated: the 8x4 image [soft_image] has
    Laplacian variance 102399/1024 = 99.9990234375.  At the threshold
    100.0 [is_blurry] returns true, yet [blur_score] returns 100.0, which
    is not below the threshold. *)
Lemma is_blurry_not_iff_blur_score :
  fst (ImageAnalyzer.is_blurry ext "soft.img" 100%Q
         (world_with "soft.img" soft_file)) = Ok true
  ∧ fst (ImageAnalyzer.blur_score ext "soft.img"
           (world_with "soft.img" soft_file)) = Ok 100%Q
  ∧ ¬ (100 < 100)%Q
  ∧ ¬ (∀ (ext : externals) (w : world) (path : string) (threshold : Q)
         (b : bool) (s : Q),
         fst (ImageAnalyzer.is_blurry ext path threshold w) = Ok b →
         fst (ImageAnalyzer.blur_score ext path w) = Ok s →
         (b = true ↔ (s < threshold)%Q)).
Proof.
  split_and!; [by vm_compute..|].
  intros H.
  specialize (H ext (world_with "soft.img" soft_file) "soft.img" 100%Q true
                100%Q eq_refl eq_refl).
  destruct H as [H _]. specialize (H eq_refl). by vm_compute in H.
Qed.

(** Witness of C3 as amended, on the same image. *)
Lemma is_blurry_iff_variance_below_witness :
  ∃ b s, fst (ImageAnalyzer.is_blurry ext "soft.img" 100%Q
                (world_with "soft.img" soft_file)) = Ok b
         ∧ fst (ImageAnalyzer.blur_score ext "soft.img"
                  (world_with "soft.img" soft_file)) = Ok s
         ∧ (b = true ↔ (Laplacian_var soft_image < 100)%Q)
         ∧ s = PyFloat.round (Laplacian_var soft_image) 2
         ∧ Spec.rounded_to_2_decimals (Laplacian_var soft_image) s.
Proof.
  apply (is_blurry_iff_variance_below ext (world_with "soft.img" soft_file)
           "soft.img" soft_file soft_image 100%Q); reflexivity.
Defined.


Lemma soft_file_decodable :
  ∃ content, fs (world_with "soft.img" soft_file) !! "soft.img" = Some content
             ∧ Spec.decodable ext content.
Proof.
  exists soft_file. split; [reflexivity|].
  eexists. split; reflexivity.
Defined.

(** Witness of C4: the analysis of [soft_image] returns, and the analysis
    of a missing file raises after one decode attempt. *)
Lemma analyze_image_quality_composition_witness :
  (∃ r, fst (ImageAnalyzer.analyze_image_quality ext "soft.img"
               (world_with "soft.img" soft_file)) = Ok r)
  ∧ (∃ e, ImageAnalyzer.analyze_image_quality ext "gone.img" empty_world =
          (Raise e, World ∅ [DecodeAttempt "gone.img"])).
Proof.
  split.
  - apply (proj2 (proj2 (analyze_image_quality_composition ext
             (world_with "soft.img" soft_file) "soft.img")) true (1 # 20)%Q 100%Q);
      [exact soft_file_decodable|reflexivity..].
  - apply (proj1 (analyze_image_quality_composition ext empty_world "gone.img")).
    intros (content & H & _). vm_compute in H. discriminate H.
Defined.

(** Witness of C8: a missing input, and an input the delegate rejects. *)
Lemma remove_background_failures_witness :
  BackgroundRemover.remove_background ext "gone.jpg" "out.png" empty_world =
    (Raise (Exn FileNotFoundError "Input file not found: gone.jpg"), empty_world)
  ∧ ∃ w', BackgroundRemover.remove_background ext "in.jpg" "out.png"
            (world_with "in.jpg" junk) =
          (Raise (Exn Exception
                    "Failed to remove background: cannot identify image file"),
           w')
          ∧ fs w' = fs (world_with "in.jpg" junk).
Proof.
  split.
  - apply (proj1 (remove_background_failures ext empty_world "gone.jpg"
                    "out.png")). reflexivity.
  - apply (proj2 (remove_background_failures ext (world_with "in.jpg" junk)
                    "in.jpg" "out.png") junk
             (Exn LibraryError "cannot identify image file")); reflexivity.
Defined.



(** Witness of C10: the analysis of a missing file. *)
Lemma analyze_image_quality_failure_is_generic_witness :
  (∃ msg, fst (ImageAnalyzer.resolution_score ext "gone.img" empty_world) =
          Raise (Exn FileNotFoundError msg))
  ∧ (∀ threshold, ∃ msg,
       fst (ImageAnalyzer.is_blurry ext "gone.img" threshold empty_world) =
       Raise (Exn FileNotFoundError msg))
  ∧ ∃ msg, fst (ImageAnalyzer.analyze_image_quality ext "gone.img" empty_world)
           = Raise (Exn Exception msg).
Proof.
  apply (proj2 (proj2 (analyze_image_quality_failure_is_generic ext empty_world
                         "gone.img"))).
  reflexivity.
Defined.

End Runs.


(** * Further properties of the code *)

(** ** Validators *)

Section MoreValidators.
Import PyStr.
Context (ext : externals).

Lemma lower_ascii_idem (c : ascii) : lower_ascii (lower_ascii c) = lower_ascii c.
Proof. destruct c as [[] [] [] [] [] [] [] []]; reflexivity. Qed.

Lemma lower_ascii_dot (c : ascii) :
  Ascii.eqb (lower_ascii c) "." = Ascii.eqb c ".".
Proof. destruct c as [[] [] [] [] [] [] [] []]; reflexivity. Qed.

Lemma lower_idem (s : string) : lower (lower s) = lower s.
Proof.
  induction s as [|c s IH]; simpl; [done|]. by rewrite lower_ascii_idem, IH.
Qed.

Lemma contains_dot_lower (s : string) :
  contains "." (lower s) = contains "." s.
Proof.
  induction s as [|c s IH]; simpl; [done|]. by rewrite lower_ascii_dot, IH.
Qed.

Lemma lower_app (s t : string) : lower (s +:+ t) = lower s +:+ lower t.
Proof.
  induction s as [|c s IH]; rewrite ?app_nil, ?app_cons; simpl; [done|].
  by rewrite IH.
Qed.

(** X2: both extension validators are case-insensitive in the whole
    filename: lower-casing the name never changes the verdict. *)
Theorem extension_validators_case_insensitive (filename : string) :
  Main.allowed_file (lower filename) = Main.allowed_file filename
  ∧ App.is_valid_image_extension (Some (lower filename))
    = App.is_valid_image_extension (Some filename).
Proof.
  destruct (contains "." filename) eqn:Hdot.
  - destruct (cut_at_last _ _ Hdot) as (pre & suf & -> & Hsuf).
    assert (Hl : lower (pre +:+ String "." suf)
                 = lower pre +:+ String "." (lower suf))
      by (by rewrite lower_app).
    assert (Hsuf' : contains "." (lower suf) = false)
      by (by rewrite contains_dot_lower).
    split.
    + rewrite Hl. unfold Main.allowed_file.
      rewrite !contains_app. simpl. rewrite !orb_true_r.
      rewrite (rsplit_1_cut _ _ _ Hsuf), (rsplit_1_cut _ _ _ Hsuf'). simpl.
      by rewrite lower_idem.
    + rewrite Hl, (is_valid_image_extension_dotted _ _ Hsuf),
        (is_valid_image_extension_dotted _ _ Hsuf').
      by rewrite lower_idem.
  - assert (Hdot' : contains "." (lower filename) = false)
      by (by rewrite contains_dot_lower).
    split.
    + unfold Main.allowed_file. by rewrite Hdot, Hdot'.
    + unfold App.is_valid_image_extension.
      rewrite (split_whole _ _ Hdot), (split_whole _ _ Hdot'). simpl.
      rewrite lower_idem. by destruct filename.
Qed.

(** X5: on a file that holds the bytes of an upload, the API's
    [is_valid_image] and the UI's [is_valid_image_file] return the same
    outcome. *)
Theorem decodability_validators_agree (w : world) (path : string)
    (uploaded_file : App.UploadedFile) :
  fs w !! path = Some (App.data uploaded_file) →
  fst (Main.is_valid_image ext path w)
  = fst (App.is_valid_image_file ext uploaded_file w).
Proof.
  intros Hf. unfold Main.is_valid_image, App.is_valid_image_file, Image_open,
    App.Image_open_upload. run. rewrite Hf. simpl.
  destruct (PIL_open ext (App.data uploaded_file)) as [img|e]; simpl; [|done].
  by destruct (verify img) as [[]|e'].
Qed.

End MoreValidators.

(** ** Quality analyzer *)

Section MoreAnalyzer.
Context (ext : externals).
Import ImageAnalyzer.

Lemma round_2_range (y : Q) :
  (0 <= y <= 100)%Q → (0 <= PyFloat.round y 2 <= 100)%Q.
Proof.
  intros [Hlo Hhi]. unfold PyFloat.round.
  change (inject_Z (10 ^ Z.of_nat 2)) with 100%Q.
  pose proof (round_half_even_close (y * 100)) as [Hk1 Hk2].
  set (k := PyFloat.round_half_even (y * 100)) in *.
  assert (H1 : (- (1 # 2) <= inject_Z k)%Q) by lra.
  assert (H2 : (inject_Z k <= 10000 + (1 # 2))%Q) by lra.
  assert (Hk : (0 <= k <= 10000)%Z).
  { unfold Qle in H1, H2. simpl in H1, H2. lia. }
  rewrite Qred_correct. unfold Qle, Qdiv, Qmult, Qinv, inject_Z. simpl. lia.
Qed.

Lemma py_min_range (x : Q) :
  (0 <= x)%Q → (0 <= PyFloat.min x 100 <= 100)%Q.
Proof.
  intros Hx. unfold PyFloat.min, PyFloat.ltb.
  destruct (Qle_bool x 100) eqn:Hle; simpl.
  - apply Qle_bool_iff in Hle. lra.
  - lra.
Qed.

(** X6: for an image whose width and height are not negative,
    [resolution_score] returns a score between 0 and 100. *)
Theorem resolution_score_range (w : world) (path : string)
    (content : list Byte.byte) (img : pil_image) :
  fs w !! path = Some content →
  PIL_open ext content = Ok img →
  (0 <= fst (size img))%Z →
  (0 <= snd (size img))%Z →
  ∃ r, fst (resolution_score ext path w) = Ok r ∧ (0 <= r <= 100)%Q.
Proof.
  intros Hf Ho Hw Hh. rewrite (resolution_score_run ext _ _ _ _ Hf Ho).
  eexists. split; [reflexivity|].
  apply round_2_range, py_min_range.
  assert (Hp : (0 <= fst (size img) * snd (size img))%Z) by nia.
  revert Hp. generalize (fst (size img) * snd (size img))%Z. intros t Ht.
  unfold Qle, Qdiv, Qmult, Qinv, inject_Z. simpl. lia.
Qed.

Lemma round_half_even_spec (n : Z) (d : positive) :
  let k := PyFloat.round_half_even (n # d) in
  (- Z.pos d <= 2 * (k * Z.pos d - n) <= Z.pos d)%Z
  ∧ ((2 * (k * Z.pos d - n) = Z.pos d ∨ 2 * (k * Z.pos d - n) = - Z.pos d)%Z →
     Z.even k = true).
Proof.
  unfold PyFloat.round_half_even. simpl Qnum. simpl Qden.
  pose proof (Z.div_mod n (Z.pos d) ltac:(lia)) as Hdm.
  pose proof (Z.mod_pos_bound n (Z.pos d) ltac:(lia)) as Hb.
  set (fl := (n / Z.pos d)%Z) in *. set (r := (n mod Z.pos d)%Z) in *.
  destruct (Z.compare_spec (2 * r) (Z.pos d)) as [He|Hl|Hg]; cbv zeta.
  - destruct (Z.even fl) eqn:Hev.
    + split; [nia|done].
    + split; [nia|]. intros _.
      replace (fl + 1)%Z with (Z.succ fl) by lia.
      rewrite Z.even_succ, <- Z.negb_even, Hev. done.
  - split; [nia|]. intros [H|H]; nia.
  - split; [nia|]. intros [H|H]; nia.
Qed.

Lemma round_half_even_mono (x y : Q) :
  (x <= y)%Q → (PyFloat.round_half_even x <= PyFloat.round_half_even y)%Z.
Proof.
  destruct x as [a b], y as [c d]. unfold Qle. simpl. intros Hxy.
  pose proof (round_half_even_spec a b) as [[_ H1] E1].
  pose proof (round_half_even_spec c d) as [[H2 _] E2].
  cbv zeta in *.
  set (k1 := PyFloat.round_half_even (a # b)) in *.
  set (k2 := PyFloat.round_half_even (c # d)) in *.
  destruct (Z_le_gt_dec k1 k2) as [|Hgt]; [done|exfalso].
  assert (Hsum : (2 * Z.pos b * Z.pos d * (k1 - k2)
                  <= 2 * Z.pos b * Z.pos d + 2 * (a * Z.pos d - c * Z.pos b))%Z)
    by nia.
  assert (Hk : k1 = (k2 + 1)%Z) by nia.
  assert (Ht1 : (2 * (k1 * Z.pos b - a))%Z = Z.pos b) by nia.
  assert (Ht2 : (2 * (k2 * Z.pos d - c))%Z = (- Z.pos d)%Z) by nia.
  specialize (E1 (or_introl Ht1)). specialize (E2 (or_intror Ht2)).
  rewrite Hk in E1. replace (k2 + 1)%Z with (Z.succ k2) in E1 by lia.
  rewrite Z.even_succ, <- Z.negb_even, E2 in E1. done.
Qed.

Lemma round_2_mono (x y : Q) :
  (x <= y)%Q → (PyFloat.round x 2 <= PyFloat.round y 2)%Q.
Proof.
  intros Hxy. unfold PyFloat.round.
  change (inject_Z (10 ^ Z.of_nat 2)) with 100%Q.
  assert (Hm : (PyFloat.round_half_even (x * 100)
                <= PyFloat.round_half_even (y * 100))%Z)
    by (apply round_half_even_mono; lra).
  revert Hm. generalize (PyFloat.round_half_even (x * 100)),
    (PyFloat.round_half_even (y * 100)). intros k1 k2 Hm.
  rewrite !Qred_correct. unfold Qle, Qdiv, Qmult, Qinv, inject_Z. simpl. lia.
Qed.

Lemma py_min_mono (x y : Q) :
  (x <= y)%Q → (PyFloat.min x 100 <= PyFloat.min y 100)%Q.
Proof.
  intros Hxy. unfold PyFloat.min, PyFloat.ltb.
  destruct (Qle_bool x 100) eqn:Hx, (Qle_bool y 100) eqn:Hy; simpl.
  - done.
  - by apply Qle_bool_iff in Hx.
  - apply Qle_bool_iff in Hy. apply not_true_iff_false in Hx.
    rewrite Qle_bool_iff in Hx. lra.
  - lra.
Qed.

(** X7: [resolution_score] is monotone in the number of pixels: an
    image with at least as many pixels as another never scores lower. *)
Theorem resolution_score_monotone (w : world) (path1 path2 : string)
    (content1 content2 : list Byte.byte) (img1 img2 : pil_image) :
  fs w !! path1 = Some content1 →
  PIL_open ext content1 = Ok img1 →
  fs w !! path2 = Some content2 →
  PIL_open ext content2 = Ok img2 →
  (fst (size img1) * snd (size img1) <= fst (size img2) * snd (size img2))%Z →
  ∃ r1 r2, fst (resolution_score ext path1 w) = Ok r1
           ∧ fst (resolution_score ext path2 w) = Ok r2
           ∧ (r1 <= r2)%Q.
Proof.
  intros Hf1 Ho1 Hf2 Ho2 Hle.
  rewrite (resolution_score_run ext _ _ _ _ Hf1 Ho1),
    (resolution_score_run ext _ _ _ _ Hf2 Ho2).
  eexists _, _. split_and!; [reflexivity..|].
  apply round_2_mono, py_min_mono.
  revert Hle. generalize (fst (size img1) * snd (size img1))%Z,
    (fst (size img2) * snd (size img2))%Z. intros t1 t2 Hle.
  unfold Qle, Qdiv, Qmult, Qinv, inject_Z. simpl. lia.
Qed.

(** X8: [is_blurry] is monotone in its threshold: an image found blurry
    at one threshold is found blurry at every larger one. *)
Theorem is_blurry_monotone (w : world) (path : string) (t1 t2 : Q) :
  (t1 <= t2)%Q →
  fst (is_blurry ext path t1 w) = Ok true →
  fst (is_blurry ext path t2 w) = Ok true.
Proof.
  intros Ht. unfold is_blurry, cv2_imread_gray. run.
  destruct (fs w !! path) as [content|] eqn:Hf; simpl; rewrite ?Hf; simpl;
    [|done].
  destruct (cv2_imdecode_gray ext content) as [image|]; simpl; [|done].
  intros [= H]. f_equal. apply ltb_lt in H. apply ltb_lt. lra.
Qed.

(** X9: for an existing file, a failure inside an analysis is re-raised
    as a plain Exception carrying the prefix of the function that
    failed: OpenCV returning no image in [is_blurry] and [blur_score],
    PIL failing to open in [resolution_score]. *)
Theorem analyses_wrap_failures (w : world) (path : string)
    (content : list Byte.byte) :
  fs w !! path = Some content →
  (cv2_imdecode_gray ext content = None →
   (∀ threshold, fst (is_blurry ext path threshold w) =
      Raise (Exn Exception
        "Failed to analyze blur: Could not read image file - may not be a valid image"))
   ∧ fst (blur_score ext path w) =
       Raise (Exn Exception
         "Failed to calculate blur score: Could not read image file - may not be a valid image"))
  ∧ (∀ e, PIL_open ext content = Raise e →
       fst (resolution_score ext path w) =
       Raise (Exn Exception ("Failed to analyze resolution: " +:+ exn_str e))).
Proof.
  intros Hf. split.
  - intros Hd. unfold is_blurry, blur_score, cv2_imread_gray. run.
    rewrite Hf. simpl. rewrite ?Hf. simpl. by rewrite Hd.
  - intros e He. unfold resolution_score, Image_open. run.
    rewrite Hf. simpl. rewrite ?Hf. simpl. by rewrite He.
Qed.

(** X10: the analyzer only reads: none of its four functions changes
    the file system, whatever the outcome. *)
Theorem analyzer_never_writes (path : string) (threshold : Q) (w : world) :
  fs (snd (resolution_score ext path w)) = fs w
  ∧ fs (snd (is_blurry ext path threshold w)) = fs w
  ∧ fs (snd (blur_score ext path w)) = fs w
  ∧ fs (snd (analyze_image_quality ext path w)) = fs w.
Proof.
  pose proof (touches_Image_open ext). pose proof (touches_imread ext).
  split_and!; apply touches_nothing.
  - unfold resolution_score. touches; done.
  - unfold is_blurry. touches; done.
  - unfold blur_score. touches; done.
  - apply touches_analyze.
Qed.

End MoreAnalyzer.

(** ** Background remover and API handlers *)

Section MoreHandlers.
Context (ext : externals).

(** X12: whatever the outcome, [remove_background] changes no file
    other than [output_path]; in particular the input survives unless it
    is the output itself. *)
Theorem remove_background_writes_only_output (w : world)
    (input_path output_path q : string) :
  q ≠ output_path →
  fs (snd (BackgroundRemover.remove_background ext input_path output_path w))
    !! q = fs w !! q.
Proof.
  intros Hq.
  apply (touches_remove_background ext [output_path] input_path output_path).
  - apply list_elem_of_singleton. done.
  - by intros ->%list_elem_of_singleton.
Qed.

(** The analysis of a file that PIL opens and verifies: it succeeds when
    OpenCV decodes the file too, and fails on the blur step otherwise. *)
Lemma analyze_image_quality_run (w : world) (path : string)
    (content : list Byte.byte) (img : pil_image) :
  fs w !! path = Some content →
  PIL_open ext content = Ok img →
  verify img = Ok tt →
  fst (ImageAnalyzer.analyze_image_quality ext path w) =
  match cv2_imdecode_gray ext content with
  | Some image =>
      let laplacian_var := Laplacian_var ext image in
      let blurry := PyFloat.ltb laplacian_var 100 in
      Ok (<["resolution_score" :=
              VFloat (PyFloat.round
                        (PyFloat.min
                           (inject_Z (fst (size img) * snd (size img))
                            / inject_Z (256 * 256) * 100)%Q 100%Q) 2)]>
         (<["is_blurry" := VBool blurry]>
         (<["blur_score" := VFloat (PyFloat.round laplacian_var 2)]>
         (<["clarity" := VStr (if negb blurry then "Clear" else "Blurry")]>
          ∅))))
  | None =>
      Raise (Exn Exception
        "Image quality analysis failed: Failed to analyze blur: Could not read image file - may not be a valid image")
  end.
Proof.
  intros Hf Ho Hv.
  unfold ImageAnalyzer.analyze_image_quality, ImageAnalyzer.is_blurry,
    ImageAnalyzer.resolution_score, ImageAnalyzer.blur_score,
    ImageAnalyzer.default_threshold, Image_open, cv2_imread_gray.
  destruct w as [files tr]. run.
  destruct (cv2_imdecode_gray ext content) as [image|] eqn:Hd;
    destruct (size img) as [width height] eqn:Hs;
    repeat (progress (rewrite ?Hf, ?Ho, ?Hv, ?Hd, ?Hs; simpl)); done.
Qed.

(** [analyze_image] on a request within the size cap that uploads, under
    an allowed name, bytes that PIL opens and verifies. *)
Lemma analyze_image_staged_run (req : Main.request) (file : Main.FileStorage)
    (w : world) (img : pil_image) :
  (Main.content_length req ≤ Main.MAX_CONTENT_LENGTH)%Z →
  Main.files req !! "image" = Some file →
  Main.filename file ≠ "" →
  Main.allowed_file (Main.filename file) = Ok true →
  PIL_open ext (Main.stream file) = Ok img →
  verify img = Ok tt →
  fst (Main.analyze_image ext req w) =
  match fst (ImageAnalyzer.analyze_image_quality ext "probe"
               (World {[ "probe" := Main.stream file ]} [])) with
  | Ok results =>
      Ok (Main.Json
            (<["status" := VStr "success"]>
               (<["filename" := VStr (secure_filename ext (Main.filename file))]>
                  results)) 200)
  | Raise e =>
      Ok (Main.Json (<["error" := VStr "Analysis failed"]>
                       {[ "details" := VStr (exn_str e) ]}) 500)
  end.
Proof.
  intros Hcap Hfile Hname Hext Ho Hv. apply String.eqb_neq in Hname.
  rewrite (analyze_image_quality_run _ "probe" (Main.stream file) img)
    by (done || apply lookup_singleton_eq).
  destruct w as [files tr].
  unfold Main.analyze_image, Main.is_valid_image, Image_open,
    NamedTemporaryFile. run.
  rewrite request_files_within by done. rewrite Hfile, Hname, Hext. simpl.
  set (name := fresh_temp_name ".jpg" files).
  rewrite lookup_insert_eq. simpl. rewrite Ho. simpl. rewrite Hv. simpl.
  set (w2 := {| fs := _; trace := _ |}).
  assert (Hw2 : fs w2 !! name = Some (Main.stream file))
    by apply lookup_insert_eq.
  pose proof (analyze_image_quality_run w2 name _ img Hw2 Ho Hv) as Hrun.
  pose proof (touches_nothing _ w2 (touches_analyze ext [] name)) as Hfs.
  destruct (ImageAnalyzer.analyze_image_quality ext name w2) as [r w3].
  simpl in Hrun, Hfs. subst r.
  destruct (cv2_imdecode_gray ext (Main.stream file)); simpl;
    rewrite Hfs, lookup_insert_eq; simpl;
    by rewrite Hfs, lookup_insert_eq.
Qed.

(** X14: in a request within the size cap, an upload with an allowed
    name that PIL verifies and OpenCV decodes is answered 200 by
    [analyze_image]; the body holds the four results of the analysis of
    the uploaded bytes, the sanitised filename and the status
    [success]. *)
Theorem analyze_image_success (req : Main.request) (file : Main.FileStorage)
    (w : world) (img : pil_image) (image : list (list Z)) :
  (Main.content_length req ≤ Main.MAX_CONTENT_LENGTH)%Z →
  Main.files req !! "image" = Some file →
  Main.filename file ≠ "" →
  Main.allowed_file (Main.filename file) = Ok true →
  PIL_open ext (Main.stream file) = Ok img →
  verify img = Ok tt →
  cv2_imdecode_gray ext (Main.stream file) = Some image →
  fst (Main.analyze_image ext req w) =
  Ok (Main.Json
        (<["status" := VStr "success"]>
        (<["filename" := VStr (secure_filename ext (Main.filename file))]>
        (<["resolution_score" :=
             VFloat (PyFloat.round
                       (PyFloat.min
                          (inject_Z (fst (size img) * snd (size img))
                           / inject_Z (256 * 256) * 100)%Q 100%Q) 2)]>
        (<["is_blurry" := VBool (PyFloat.ltb (Laplacian_var ext image) 100)]>
        (<["blur_score" := VFloat (PyFloat.round (Laplacian_var ext image) 2)]>
        (<["clarity" :=
             VStr (if negb (PyFloat.ltb (Laplacian_var ext image) 100)
                   then "Clear" else "Blurry")]> ∅)))))) 200).
Proof.
  intros Hcap Hfile Hname Hext Ho Hv Hd.
  rewrite (analyze_image_staged_run req file w img) by done.
  rewrite (analyze_image_quality_run _ "probe" (Main.stream file) img)
    by (done || apply lookup_singleton_eq).
  by rewrite Hd.
Qed.

(** X15: in a request within the size cap, an upload that PIL verifies
    but OpenCV cannot decode is answered 500 by [analyze_image], with the
    failure of the blur step wrapped twice in the details. *)
Theorem analyze_image_opencv_failure (req : Main.request)
    (file : Main.FileStorage) (w : world) (img : pil_image) :
  (Main.content_length req ≤ Main.MAX_CONTENT_LENGTH)%Z →
  Main.files req !! "image" = Some file →
  Main.filename file ≠ "" →
  Main.allowed_file (Main.filename file) = Ok true →
  PIL_open ext (Main.stream file) = Ok img →
  verify img = Ok tt →
  cv2_imdecode_gray ext (Main.stream file) = None →
  fst (Main.analyze_image ext req w) =
  Ok (Main.Json
        (<["error" := VStr "Analysis failed"]>
           {[ "details" := VStr
                "Image quality analysis failed: Failed to analyze blur: Could not read image file - may not be a valid image" ]})
        500).
Proof.
  intros Hcap Hfile Hname Hext Ho Hv Hd.
  rewrite (analyze_image_staged_run req file w img) by done.
  rewrite (analyze_image_quality_run _ "probe" (Main.stream file) img)
    by (done || apply lookup_singleton_eq).
  by rewrite Hd.
Qed.

(** X16: [remove_bg] on a request within the size cap that uploads,
    under an allowed name, bytes that PIL verifies: when the delegate
    returns, the answer is the delegate's output as a PNG attachment
    named after the sanitised filename; when the delegate fails, the
    answer is 500 with the wrapped message. *)
Theorem remove_bg_outcome (req : Main.request) (file : Main.FileStorage)
    (w : world) (img : pil_image) :
  (Main.content_length req ≤ Main.MAX_CONTENT_LENGTH)%Z →
  Main.files req !! "image" = Some file →
  Main.filename file ≠ "" →
  Main.allowed_file (Main.filename file) = Ok true →
  PIL_open ext (Main.stream file) = Ok img →
  verify img = Ok tt →
  fst (Main.remove_bg ext req w) =
  match rembg_remove ext (Main.stream file) with
  | Ok output_bytes =>
      Ok (Main.SendFile
            (fresh_temp_name ".png"
               (<[fresh_temp_name ".jpg" (fs w) := []]> (fs w)))
            output_bytes
            ("no_bg_" +:+ secure_filename ext (Main.filename file) +:+ ".png")
            "image/png")
  | Raise e =>
      Ok (Main.Json
            (<["error" := VStr "Background removal failed"]>
               {[ "details" :=
                    VStr ("Failed to remove background: " +:+ exn_str e) ]})
            500)
  end.
Proof.
  intros Hcap Hfile Hname Hext Ho Hv. apply String.eqb_neq in Hname.
  destruct w as [files tr].
  unfold Main.remove_bg, Main.is_valid_image, Image_open, NamedTemporaryFile,
    BackgroundRemover.remove_background, Main.send_file.
  run. rewrite request_files_within by done.
  rewrite Hfile, Hname, Hext. simpl.
  set (inp := fresh_temp_name ".jpg" files).
  set (out := fresh_temp_name ".png" (<[inp:=[]]> files)).
  pose proof (fresh_temp_name_fresh ".png" (<[inp:=[]]> files)) as Hout.
  fold out in Hout. apply lookup_insert_None in Hout as [_ Hne].
  assert (Hskip : ∀ (m : gmap string (list Byte.byte)) v,
            <[out:=v]> m !! inp = m !! inp)
    by (intros; apply lookup_insert_ne; congruence).
  assert (Hskip' : ∀ (m : gmap string (list Byte.byte)) v,
            <[inp:=v]> m !! out = m !! out)
    by (intros; apply lookup_insert_ne; congruence).
  destruct (rembg_remove ext (Main.stream file)) as [output_bytes|e] eqn:Hr;
    repeat (progress (rewrite ?lookup_insert_eq, ?Hskip, ?Hskip', ?Ho, ?Hv,
                        ?Hr; simpl));
    done.
Qed.

(** X18: the two API handlers reject alike: a request within the size
    cap that has no [image] field, an empty filename or a disallowed
    extension gets the same 400 answer from [remove_bg] and from
    [analyze_image], and neither touches the world. *)
Theorem api_handlers_reject_alike (req : Main.request) (w : world) :
  (Main.content_length req ≤ Main.MAX_CONTENT_LENGTH)%Z →
  (Main.files req !! "image" = None
   ∨ ∃ file, Main.files req !! "image" = Some file
             ∧ (Main.filename file = ""
                ∨ Main.allowed_file (Main.filename file) = Ok false)) →
  ∃ body, Main.analyze_image ext req w = (Ok (Main.Json body 400), w)
          ∧ Main.remove_bg ext req w = (Ok (Main.Json body 400), w)
          ∧ is_Some (body !! "error").
Proof.
  intros Hcap. unfold Main.analyze_image, Main.remove_bg. run.
  rewrite request_files_within by done.
  intros [Hnone|(file & Hfile & [Hname|Hext])].
  - rewrite Hnone. eexists. split_and!; [done..|].
    rewrite lookup_singleton_eq. eauto.
  - rewrite Hfile, Hname. simpl. eexists. split_and!; [done..|].
    rewrite lookup_singleton_eq. eauto.
  - rewrite Hfile. destruct (String.eqb (Main.filename file) "").
    + eexists. split_and!; [done..|]. rewrite lookup_singleton_eq. eauto.
    + rewrite Hext. simpl. eexists. split_and!; [done..|].
      rewrite lookup_singleton_eq. eauto.
Qed.

Ltac error_answer :=
  eexists _, _; split; [reflexivity|]; right;
  split_and!; [auto|rewrite ?lookup_insert_eq, ?lookup_singleton_eq; eauto|
               by rewrite ?lookup_insert_ne, ?lookup_singleton_ne by done].

Ltac unlink_step name :=
  match goal with
  | |- context [fs ?w !! name] =>
      let H := fresh "Hl" in
      destruct (fs w !! name) eqn:H; simpl; rewrite ?H; simpl
  end.

(** X13: [analyze_image] never raises: every request gets a JSON answer,
    either 200 with the status [success] and no [error] entry, or 400 or
    500 with an [error] entry. *)
Theorem analyze_image_always_answers (req : Main.request) (w : world) :
  ∃ body status,
    fst (Main.analyze_image ext req w) = Ok (Main.Json body status)
    ∧ ((status = 200%Z ∧ body !! "status" = Some (VStr "success")
        ∧ body !! "error" = None)
       ∨ ((status = 400%Z ∨ status = 500%Z) ∧ is_Some (body !! "error")
          ∧ body !! "status" = None)).
Proof.
  unfold Main.analyze_image, Main.request_files, NamedTemporaryFile. run.
  destruct (Z.ltb _ (Main.content_length req)); simpl; [error_answer|].
  destruct (Main.files req !! "image") as [file|]; [|error_answer].
  destruct (String.eqb (Main.filename file) ""); [error_answer|].
  destruct (Main.allowed_file (Main.filename file)) as [[]|e]; simpl;
    [|error_answer..].
  set (name := fresh_temp_name ".jpg" (fs w)).
  set (w2 := {| fs := _; trace := _ |}).
  destruct (Main.is_valid_image ext name w2) as [[[]|e] w3]; simpl.
  - pose proof (analyze_image_quality_cases ext w3 name) as Hc.
    destruct (ImageAnalyzer.analyze_image_quality ext name w3)
      as [[r|e] w4]; simpl in *.
    + destruct Hc as [_ (b & rs & bs & _ & _ & _ & ->)].
      unlink_step name.
      * eexists _, _. split; [reflexivity|]. left. split_and!; [done| |].
        -- by rewrite lookup_insert_eq.
        -- by rewrite !lookup_insert_ne by done.
      * eexists _, _. split; [reflexivity|]. left. split_and!; [done| |].
        -- by rewrite lookup_insert_eq.
        -- by rewrite !lookup_insert_ne by done.
    + unlink_step name; error_answer.
  - unlink_step name; error_answer.
  - unlink_step name; error_answer.
Qed.

Ltac answer :=
  eexists; split; [reflexivity|];
  first [ reflexivity
        | split; [auto|rewrite ?lookup_insert_eq, ?lookup_singleton_eq; eauto] ].

(** X19: [remove_bg] never raises: every request gets either the
    processed image as a PNG attachment, or a JSON answer with status 400
    or 500 and an [error] entry. *)
Theorem remove_bg_always_answers (req : Main.request) (w : world) :
  ∃ r, fst (Main.remove_bg ext req w) = Ok r
       ∧ match r with
         | Main.SendFile _ _ _ mimetype => mimetype = "image/png"
         | Main.Json body status =>
             (status = 400%Z ∨ status = 500%Z) ∧ is_Some (body !! "error")
         end.
Proof.
  unfold Main.remove_bg, Main.request_files, NamedTemporaryFile,
    Main.send_file. run.
  destruct (Z.ltb _ (Main.content_length req)); simpl; [answer|].
  destruct (Main.files req !! "image") as [file|]; [|answer].
  destruct (String.eqb (Main.filename file) ""); [answer|].
  destruct (Main.allowed_file (Main.filename file)) as [[]|e]; simpl;
    [|answer..].
  set (inp := fresh_temp_name ".jpg" (fs w)).
  set (out := fresh_temp_name ".png" (<[inp:=[]]> (fs w))).
  set (w2 := {| fs := _; trace := _ |}).
  destruct (Main.is_valid_image ext inp w2) as [[[]|e] w3]; simpl.
  - destruct (BackgroundRemover.remove_background ext inp out w3)
      as [[[]|e] w4]; simpl.
    + destruct (fs w4 !! out) as [content|] eqn:Ho; simpl;
        unlink_step inp; answer.
    + unlink_step inp; answer.
  - unlink_step inp; answer.
  - unlink_step inp; answer.
Qed.

End MoreHandlers.

(** ** The PIL-only fallback and the analysis page *)

Section Fallback.
Context (ext : externals) (fext : AppAnalysis.fallback_externals).
Import AppAnalysis.

Lemma fallback_total (path : string) (w : world) :
  ∃ d, fst (analyze_image_quality_fallback ext fext path w) = Ok d.
Proof.
  unfold analyze_image_quality_fallback, try_except.
  match goal with
  | |- context [match ?m w with _ => _ end] => destruct (m w) as [[d|e] w1]
  end; simpl; eauto.
Qed.

(** The fallback on a file that PIL opens. *)
Lemma fallback_run (w : world) (path : string) (content : list Byte.byte)
    (img : pil_image) :
  fs w !! path = Some content →
  PIL_open ext content = Ok img →
  fst (analyze_image_quality_fallback ext fext path w) =
  match PIL_convert_L fext content with
  | Raise e => Ok {[ "error" := JStr ("Analysis failed: " +:+ exn_str e) ]}
  | Ok img_array =>
      let width := fst (size img) in
      let height := snd (size img) in
      let laplacian_var := np_var fext img_array in
      if (height =? 0)%Z then
        Ok {[ "error" := JStr "Analysis failed: division by zero" ]}
      else
        Ok (<["width" := JInt width]>
           (<["height" := JInt height]>
           (<["file_size" := JInt (Z.of_nat (length content))]>
           (<["format" := from_option JStr JNone (PIL_format fext content)]>
           (<["mode" := JStr (PIL_mode fext content)]>
           (<["blur_score" := from_option JFloat JNaN laplacian_var]>
           (<["blur_assessment" :=
                JStr (if float_lt (Some 100%Q) laplacian_var then "Sharp"
                      else if float_lt laplacian_var (Some 50%Q) then "Blurry"
                      else "Moderate")]>
           (<["resolution_category" :=
                JStr (if (1000000 <? width * height)%Z then "High"
                      else if (300000 <? width * height)%Z then "Medium"
                      else "Low")]>
           (<["aspect_ratio" :=
                JFloat (PyFloat.round (float_div fext width height) 2)]>
           (<["total_pixels" := JInt (width * height)]> ∅))))))))))
  end.
Proof.
  intros Hf Ho. destruct w as [files tr].
  unfold analyze_image_quality_fallback, Image_open, os_path_getsize, true_div.
  run.
  destruct (size img) as [width height] eqn:Hs.
  destruct (PIL_convert_L fext content) as [img_array|e] eqn:Hc;
    destruct (height =? 0)%Z eqn:Hz;
    repeat (progress (rewrite ?Hf, ?Ho, ?Hs, ?Hc, ?Hz; simpl)); done.
Qed.

Lemma touches_fallback paths path :
  touches_only paths (analyze_image_quality_fallback ext fext path).
Proof.
  unfold analyze_image_quality_fallback, os_path_getsize, true_div.
  pose proof (touches_Image_open ext). touches; done.
Qed.

(** X23: the fallback never raises and never writes: it always returns
    a dict, and for a missing file or a file PIL cannot open that dict is
    the single entry [error] carrying the failure's message: the
    runtime's message for the missing path, or PIL's. *)
Theorem fallback_never_raises (path : string) (w : world) :
  ∃ d, fst (analyze_image_quality_fallback ext fext path w) = Ok d
       ∧ fs (snd (analyze_image_quality_fallback ext fext path w)) = fs w
       ∧ (fs w !! path = None →
          d = {[ "error" :=
                   JStr ("Analysis failed: " +:+ enoent_message ext path) ]})
       ∧ (∀ content e,
            fs w !! path = Some content → PIL_open ext content = Raise e →
            d = {[ "error" := JStr ("Analysis failed: " +:+ exn_str e) ]}).
Proof.
  destruct (fallback_total path w) as [d Hd]. exists d.
  split_and!; [done|apply touches_nothing, touches_fallback|..].
  - intros Hf. revert Hd. destruct w as [files tr].
    unfold analyze_image_quality_fallback, Image_open. run. rewrite Hf. simpl.
    by intros [= <-].
  - intros content e Hf He. revert Hd. destruct w as [files tr].
    unfold analyze_image_quality_fallback, Image_open. run. rewrite Hf. simpl.
    rewrite He. simpl. by intros [= <-].
Qed.

(** X24: on an image it can read, the fallback reports the variance of
    the grey levels as [blur_score] and labels it Sharp exactly above
    100, Blurry exactly below 50, and Moderate exactly from 50 to 100 or
    when the variance is NaN. *)
Theorem fallback_blur_assessment (w : world) (path : string)
    (content : list Byte.byte) (img : pil_image) (img_array : list (list Z)) :
  fs w !! path = Some content →
  PIL_open ext content = Ok img →
  PIL_convert_L fext content = Ok img_array →
  snd (size img) ≠ 0%Z →
  ∃ d, fst (analyze_image_quality_fallback ext fext path w) = Ok d
       ∧ d !! "blur_score"
         = Some (from_option JFloat JNaN (np_var fext img_array))
       ∧ (d !! "blur_assessment" = Some (JStr "Sharp")
          ↔ ∃ v, np_var fext img_array = Some v ∧ (100 < v)%Q)
       ∧ (d !! "blur_assessment" = Some (JStr "Blurry")
          ↔ ∃ v, np_var fext img_array = Some v ∧ (v < 50)%Q)
       ∧ (d !! "blur_assessment" = Some (JStr "Moderate")
          ↔ np_var fext img_array = None
            ∨ ∃ v, np_var fext img_array = Some v ∧ (50 <= v <= 100)%Q).
Proof.
  intros Hf Ho Hc Hh. rewrite (fallback_run w path content img Hf Ho), Hc.
  apply Z.eqb_neq in Hh. cbv zeta. rewrite Hh.
  eexists. split; [reflexivity|].
  rewrite !lookup_insert_ne by done. rewrite !lookup_insert_eq.
  split; [done|].
  destruct (np_var fext img_array) as [v|]; simpl.
  2:{ split_and!.
      - split; [done|by intros (v & ? & _)].
      - split; [done|by intros (v & ? & _)].
      - split; [by left|done]. }
  destruct (PyFloat.ltb 100 v) eqn:H1; [|destruct (PyFloat.ltb v 50) eqn:H2].
  - apply ltb_lt in H1. split_and!; split; try done.
    + intros _. by exists v.
    + intros (v' & [= <-] & ?). lra.
    + intros [?|(v' & [= <-] & ?)]; [done|lra].
  - apply ltb_lt in H2. apply not_true_iff_false in H1.
    rewrite ltb_lt in H1. split_and!; split; try done.
    + intros (v' & [= <-] & ?). lra.
    + intros _. by exists v.
    + intros [?|(v' & [= <-] & ?)]; [done|lra].
  - apply not_true_iff_false in H1, H2. rewrite ltb_lt in H1, H2.
    split_and!; split; try done.
    + intros (v' & [= <-] & ?). lra.
    + intros (v' & [= <-] & ?). lra.
    + intros _. right. exists v. split; [done|lra].
Qed.

(** X25: on an image it can read, the fallback reports the pixel count as
    [total_pixels] and labels it High exactly above 1000000 pixels,
    Medium exactly above 300000 and up to 1000000, and Low exactly up
    to 300000. *)
Theorem fallback_resolution_category (w : world) (path : string)
    (content : list Byte.byte) (img : pil_image) (img_array : list (list Z)) :
  fs w !! path = Some content →
  PIL_open ext content = Ok img →
  PIL_convert_L fext content = Ok img_array →
  snd (size img) ≠ 0%Z →
  ∃ d, fst (analyze_image_quality_fallback ext fext path w) = Ok d
       ∧ d !! "total_pixels" = Some (JInt (fst (size img) * snd (size img)))
       ∧ (d !! "resolution_category" = Some (JStr "High")
          ↔ (1000000 < fst (size img) * snd (size img))%Z)
       ∧ (d !! "resolution_category" = Some (JStr "Medium")
          ↔ (300000 < fst (size img) * snd (size img) <= 1000000)%Z)
       ∧ (d !! "resolution_category" = Some (JStr "Low")
          ↔ (fst (size img) * snd (size img) <= 300000)%Z).
Proof.
  intros Hf Ho Hc Hh. rewrite (fallback_run w path content img Hf Ho), Hc.
  apply Z.eqb_neq in Hh. cbv zeta. rewrite Hh.
  eexists. split; [reflexivity|].
  rewrite !lookup_insert_ne by done. rewrite !lookup_insert_eq.
  set (t := (fst (size img) * snd (size img))%Z).
  split; [done|].
  destruct (Z.ltb_spec 1000000 t); [|destruct (Z.ltb_spec 300000 t)];
    split_and!; split; try done; try lia.
Qed.

Lemma touches_page_analysis paths available path :
  touches_only paths (analyze_image_quality ext fext available path).
Proof.
  unfold analyze_image_quality. destruct available.
  - pose proof (touches_analyze ext). touches; done.
  - apply touches_fallback.
Qed.

(** Staging one temporary file, running [body] on it and removing it
    afterwards changes no file, provided [body] writes nothing else. *)
Lemma staged_one_and_cleaned {A} (data : list Byte.byte)
    (body : string → M A) :
  (∀ p, touches_only [p] (body p)) →
  touches_only []
    (temp_path ← (temp_file ← NamedTemporaryFile ".jpg";
                  _ ← write_file temp_file data;
                  mret temp_file);
     try_finally (body temp_path)
       (found ← os_path_exists temp_path;
        if (found : bool) then os_unlink (enoent_message ext) temp_path else mret tt)).
Proof.
  intros Hbody w q _.
  unfold mbind at 1 2 3, M_bind, bind at 1 2 3, NamedTemporaryFile,
    write_file at 1, mret at 1, M_ret, ret at 1. simpl.
  set (name := fresh_temp_name ".jpg" (fs w)).
  pose proof (fresh_temp_name_fresh ".jpg" (fs w)) as Hfresh.
  fold name in Hfresh.
  set (w2 := {| fs := <[name:=data]> (<[name:=[]]> (fs w)); trace := _ |}).
  unfold try_finally. specialize (Hbody name w2 q).
  destruct (body name w2) as [r w3].
  pose proof (unlink_if_exists ext name w3) as Hu.
  unfold mbind, M_bind, M_ret in Hu. rewrite Hu. simpl in *.
  destruct (decide (q = name)) as [->|Hq].
  { by rewrite lookup_delete_eq. }
  rewrite lookup_delete_ne by done.
  rewrite Hbody by (by intros ->%list_elem_of_singleton).
  by rewrite !lookup_insert_ne.
Qed.

(** X22: the analysis page leaves no file behind: whatever the upload,
    whichever analyzer is in use and whatever the outcome, the temporary
    file is gone and the file system is as it was. *)
Theorem show_image_analysis_leaves_no_file (available : bool)
    (uploaded_file : option App.UploadedFile) (button : bool) (w : world) :
  fs (snd (show_image_analysis ext fext available uploaded_file button w))
  = fs w.
Proof.
  apply touches_nothing. unfold show_image_analysis.
  destruct uploaded_file as [uploaded_file|]; [|touches].
  apply touches_bind; [touches|]. intros valid_ext.
  destruct (negb valid_ext); [touches|].
  apply touches_bind.
  { unfold App.Image_open_upload, App.st_image. touches. }
  intros shown. destruct (negb shown); [touches|].
  destruct (negb button); [touches|].
  apply touches_try_except; [|intros e; touches].
  apply touches_bind; [apply touches_is_valid_image_file|]. intros valid.
  destruct (negb valid); [touches|].
  apply (staged_one_and_cleaned _ (λ temp_path, _)).
  intros p. pose proof touches_page_analysis. touches; done.
Qed.

(** X27: with the fallback analyzer in use, an upload that passes the
    page's checks always ends in the message [Analysis completed!], the
    temporary file removed: the fallback reports its failures in the
    dict it returns, so the page's error branch is never taken. *)
Theorem analysis_page_fallback_reports_completion
    (uploaded_file : App.UploadedFile) (img : pil_image) (w : world) :
  App.is_valid_image_extension (Some (App.name uploaded_file)) = Ok true →
  PIL_open ext (App.data uploaded_file) = Ok img →
  load img = Ok tt →
  verify img = Ok tt →
  ∃ t, show_image_analysis ext fext false (Some uploaded_file) true w =
       (Ok tt, World (fs w) (StSuccess "Analysis completed!" :: t)).
Proof.
  intros Hext Ho Hl Hv. destruct w as [files tr].
  unfold show_image_analysis, App.is_valid_image_file, App.Image_open_upload,
    App.st_image, NamedTemporaryFile, analyze_image_quality.
  run. rewrite Hext. simpl.
  repeat (progress (rewrite ?Ho, ?Hl, ?Hv; simpl)).
  set (name := fresh_temp_name ".jpg" files).
  pose proof (fresh_temp_name_fresh ".jpg" files) as Hfresh. fold name in Hfresh.
  set (w2 := {| fs := _; trace := _ |}).
  destruct (fallback_total name w2) as [d Hd].
  pose proof (touches_nothing _ w2 (touches_fallback [] name)) as Hfs.
  destruct (analyze_image_quality_fallback ext fext name w2) as [r w3].
  simpl in Hd, Hfs. subst r. simpl.
  rewrite Hfs, lookup_insert_eq. simpl. rewrite ?lookup_insert_eq. simpl.
  eexists. f_equal. f_equal.
  rewrite !delete_insert_eq. by apply delete_id.
Qed.

End Fallback.

(** ** Concrete runs of the further properties *)

Section MoreRuns.
Import Sample SampleFallback.

(** Witness of X3: an upper-case extension after two dots. *)
Lemma validators_agree_dotted_witness :
  App.is_valid_image_extension (Some "holiday.photo.JPG")
  = Main.allowed_file "holiday.photo.JPG".
Proof. apply validators_agree_dotted. reflexivity. Defined.

(** Witness of X4: a name without a dot. *)
Lemma is_valid_image_extension_dotless_witness :
  App.is_valid_image_extension (Some "README") =
  Ok (bool_decide (PyStr.lower "README" ∈ App.ALLOWED_EXTENSIONS)).
Proof. apply is_valid_image_extension_dotless. reflexivity. Defined.

(** Witness of X5: the same image as a file and as an upload. *)
Lemma decodability_validators_agree_witness :
  fst (Main.is_valid_image ext "a.jpg" (world_with "a.jpg" soft_file))
  = fst (App.is_valid_image_file ext
           {| App.name := "photo.jpg"; App.data := soft_file |}
           (world_with "a.jpg" soft_file)).
Proof.
  apply (decodability_validators_agree ext (world_with "a.jpg" soft_file)
           "a.jpg" {| App.name := "photo.jpg"; App.data := soft_file |}).
  reflexivity.
Defined.

(** Witness of X6: the 8x4 image. *)
Lemma resolution_score_range_witness :
  ∃ r, fst (ImageAnalyzer.resolution_score ext "a.img"
              (world_with "a.img" soft_file)) = Ok r
       ∧ (0 <= r <= 100)%Q.
Proof.
  eapply (resolution_score_range ext (world_with "a.img" soft_file) "a.img"
            soft_file); [reflexivity|reflexivity|by vm_compute..].
Defined.

(** Witness of X7: an 8x4 image against a 128x128 one. *)
Lemma resolution_score_monotone_witness :
  ∃ r1 r2,
    fst (ImageAnalyzer.resolution_score ext "small.img"
           (World (<["small.img" := soft_file]> {[ "big.img" := header_128 ]})
              [])) = Ok r1
    ∧ fst (ImageAnalyzer.resolution_score ext "big.img"
             (World (<["small.img" := soft_file]> {[ "big.img" := header_128 ]})
                [])) = Ok r2
    ∧ (r1 <= r2)%Q.
Proof.
  eapply (resolution_score_monotone ext _ "small.img" "big.img" soft_file
            header_128); [reflexivity..|by vm_compute].
Defined.

(** Witness of X8: blurry at 100.0, hence at 150.0. *)
Lemma is_blurry_monotone_witness :
  fst (ImageAnalyzer.is_blurry ext "soft.img" 150%Q
         (world_with "soft.img" soft_file)) = Ok true.
Proof.
  apply (is_blurry_monotone ext (world_with "soft.img" soft_file) "soft.img"
           100%Q 150%Q); [by vm_compute|reflexivity].
Defined.

(** Witness of X9: a file that holds no image. *)
Lemma analyses_wrap_failures_witness :
  ((∀ threshold,
      fst (ImageAnalyzer.is_blurry ext "a.jpg" threshold
             (world_with "a.jpg" junk)) =
      Raise (Exn Exception
        "Failed to analyze blur: Could not read image file - may not be a valid image"))
   ∧ fst (ImageAnalyzer.blur_score ext "a.jpg" (world_with "a.jpg" junk)) =
       Raise (Exn Exception
         "Failed to calculate blur score: Could not read image file - may not be a valid image"))
  ∧ fst (ImageAnalyzer.resolution_score ext "a.jpg" (world_with "a.jpg" junk)) =
      Raise (Exn Exception
               "Failed to analyze resolution: cannot identify image file").
Proof.
  pose proof (analyses_wrap_failures ext (world_with "a.jpg" junk) "a.jpg" junk
                eq_refl) as [H1 H2].
  split.
  - apply H1. reflexivity.
  - apply (H2 (Exn LibraryError "cannot identify image file")). reflexivity.
Defined.

(** Witness of X11: the sample delegate on a decodable image. *)
Lemma remove_background_success_witness :
  BackgroundRemover.remove_background ext "in.png" "out.png"
    (world_with "in.png" soft_file) =
  (Ok tt,
   World (<["out.png" := soft_file]> (fs (world_with "in.png" soft_file)))
     (Segmentation :: trace (world_with "in.png" soft_file))).
Proof.
  apply (remove_background_success ext (world_with "in.png" soft_file)
           "in.png" "out.png" soft_file soft_file);
    [reflexivity|reflexivity|right; reflexivity].
Defined.

(** Witness of X28: an output path in a directory that does not exist. *)
Lemma remove_background_unwritable_witness :
  BackgroundRemover.remove_background ext "in.png" "nodir/out.png"
    (world_with "in.png" soft_file) =
  (Raise (Exn Exception
            "Failed to remove background: [Errno 2] No such file or directory: 'nodir/out.png'"),
   World (fs (world_with "in.png" soft_file))
     (Segmentation :: trace (world_with "in.png" soft_file))).
Proof.
  apply (remove_background_unwritable ext (world_with "in.png" soft_file)
           "in.png" "nodir/out.png" soft_file soft_file
           (Exn FileNotFoundError
              "[Errno 2] No such file or directory: 'nodir/out.png'"));
    reflexivity.
Defined.

(** Witness of X12: the input file after a run. *)
Lemma remove_background_writes_only_output_witness :
  fs (snd (BackgroundRemover.remove_background ext "in.png" "out.png"
             (world_with "in.png" soft_file))) !! "in.png"
  = fs (world_with "in.png" soft_file) !! "in.png".
Proof.
  apply remove_background_writes_only_output. discriminate.
Defined.

(** Witness of X14: the 8x4 image uploaded as [photo.jpg]. *)
Lemma analyze_image_success_witness :
  fst (Main.analyze_image ext (upload "photo.jpg" soft_file) empty_world) =
  Ok (Main.Json
        (<["status" := VStr "success"]>
        (<["filename" := VStr "photo.jpg"]>
        (<["resolution_score" := VFloat (1 # 20)]>
        (<["is_blurry" := VBool true]>
        (<["blur_score" := VFloat 100]>
        (<["clarity" := VStr "Blurry"]> ∅)))))) 200).
Proof.
  rewrite (analyze_image_success ext (upload "photo.jpg" soft_file)
             {| Main.filename := "photo.jpg"; Main.stream := soft_file |}
             empty_world
             (PilImage (8, 4)%Z (Ok tt) (Ok tt)) soft_image
             ltac:(by vm_compute) eq_refl ltac:(discriminate) eq_refl eq_refl
             eq_refl eq_refl).
  by vm_compute.
Defined.

(** Witness of X15: the same upload when OpenCV decodes nothing. *)
Lemma analyze_image_opencv_failure_witness :
  fst (Main.analyze_image ext_no_codec (upload "photo.jpg" soft_file)
         empty_world) =
  Ok (Main.Json
        (<["error" := VStr "Analysis failed"]>
           {[ "details" := VStr
                "Image quality analysis failed: Failed to analyze blur: Could not read image file - may not be a valid image" ]})
        500).
Proof.
  apply (analyze_image_opencv_failure ext_no_codec
           (upload "photo.jpg" soft_file)
           {| Main.filename := "photo.jpg"; Main.stream := soft_file |}
           empty_world (PilImage (8, 4)%Z (Ok tt) (Ok tt))
           ltac:(by vm_compute) eq_refl ltac:(discriminate) eq_refl eq_refl
           eq_refl eq_refl).
Defined.

(** Witness of X16: the 8x4 image uploaded as [photo.jpg]. *)
Lemma remove_bg_outcome_witness :
  fst (Main.remove_bg ext (upload "photo.jpg" soft_file) empty_world) =
  Ok (Main.SendFile "/tmp/tmp0.png" soft_file "no_bg_photo.jpg.png"
        "image/png").
Proof.
  rewrite (remove_bg_outcome ext (upload "photo.jpg" soft_file)
             {| Main.filename := "photo.jpg"; Main.stream := soft_file |}
             empty_world (PilImage (8, 4)%Z (Ok tt) (Ok tt))
             ltac:(by vm_compute) eq_refl ltac:(discriminate) eq_refl eq_refl
             eq_refl).
  by vm_compute.
Defined.

(** Witness of X17: the same upload on an empty file system. *)
Lemma remove_bg_leaves_output_temp_witness :
  fs empty_world !! "/tmp/tmp0.png" = None
  ∧ is_Some (fs (snd (Main.remove_bg ext (upload "photo.jpg" soft_file)
                        empty_world)) !! "/tmp/tmp0.png")
  ∧ ∀ q, q ≠ "/tmp/tmp0.png" →
         fs (snd (Main.remove_bg ext (upload "photo.jpg" soft_file)
                    empty_world)) !! q = fs empty_world !! q.
Proof.
  apply (remove_bg_leaves_output_temp ext (upload "photo.jpg" soft_file)
           {| Main.filename := "photo.jpg"; Main.stream := soft_file |}
           empty_world ltac:(by vm_compute) eq_refl ltac:(discriminate)
           eq_refl).
Defined.

(** Witness of X18: an upload named [photo.txt]. *)
Lemma api_handlers_reject_alike_witness :
  ∃ body,
    Main.analyze_image ext (upload "photo.txt" junk) empty_world =
      (Ok (Main.Json body 400), empty_world)
    ∧ Main.remove_bg ext (upload "photo.txt" junk) empty_world =
      (Ok (Main.Json body 400), empty_world)
    ∧ is_Some (body !! "error").
Proof.
  apply api_handlers_reject_alike; [by vm_compute|]. right.
  exists {| Main.filename := "photo.txt"; Main.stream := junk |}.
  split; [reflexivity|]. right. reflexivity.
Defined.

(** Witness of X24: a 2x2 image of variance 10000. *)
Lemma fallback_blur_assessment_witness :
  ∃ d, fst (AppAnalysis.analyze_image_quality_fallback ext fext "a.img"
              (world_with "a.img" sharp_file)) = Ok d
       ∧ d !! "blur_score" = Some (AppAnalysis.JFloat 10000)
       ∧ (d !! "blur_assessment" = Some (AppAnalysis.JStr "Sharp")
          ↔ ∃ v, Some 10000%Q = Some v ∧ (100 < v)%Q)
       ∧ (d !! "blur_assessment" = Some (AppAnalysis.JStr "Blurry")
          ↔ ∃ v, Some 10000%Q = Some v ∧ (v < 50)%Q)
       ∧ (d !! "blur_assessment" = Some (AppAnalysis.JStr "Moderate")
          ↔ Some 10000%Q = None
            ∨ ∃ v, Some 10000%Q = Some v ∧ (50 <= v <= 100)%Q).
Proof.
  apply (fallback_blur_assessment ext fext (world_with "a.img" sharp_file)
           "a.img" sharp_file (PilImage (2, 2)%Z (Ok tt) (Ok tt))
           [ [0; 0]; [200; 200] ]%Z); [reflexivity..|discriminate].
Defined.

(** Witness of X25: a 2x2 image. *)
Lemma fallback_resolution_category_witness :
  ∃ d, fst (AppAnalysis.analyze_image_quality_fallback ext fext "a.img"
              (world_with "a.img" sharp_file)) = Ok d
       ∧ d !! "total_pixels" = Some (AppAnalysis.JInt (2 * 2))
       ∧ (d !! "resolution_category" = Some (AppAnalysis.JStr "High")
          ↔ (1000000 < 2 * 2)%Z)
       ∧ (d !! "resolution_category" = Some (AppAnalysis.JStr "Medium")
          ↔ (300000 < 2 * 2 <= 1000000)%Z)
       ∧ (d !! "resolution_category" = Some (AppAnalysis.JStr "Low")
          ↔ (2 * 2 <= 300000)%Z).
Proof.
  apply (fallback_resolution_category ext fext (world_with "a.img" sharp_file)
           "a.img" sharp_file (PilImage (2, 2)%Z (Ok tt) (Ok tt))
           [ [0; 0]; [200; 200] ]%Z); [reflexivity..|discriminate].
Defined.

(** The fallback on missing files: the message quotes the path as
    [repr] does, in double quotes when the name holds an apostrophe. *)
Lemma fallback_missing_file_runs :
  fst (AppAnalysis.analyze_image_quality_fallback ext fext "gone.img"
         empty_world) =
    Ok {[ "error" := AppAnalysis.JStr
            "Analysis failed: [Errno 2] No such file or directory: 'gone.img'" ]}
  ∧ fst (AppAnalysis.analyze_image_quality_fallback ext fext
           ("it" +:+ String apostrophe "s.img") empty_world) =
    Ok {[ "error" := AppAnalysis.JStr
            ("Analysis failed: [Errno 2] No such file or directory: "
             +:+ String double_quote
                   ("it" +:+ String apostrophe "s.img"
                    +:+ String double_quote "")) ]}.
Proof. split; by vm_compute. Qed.

(** Witness of X27: the 8x4 image uploaded as [photo.jpg]. *)
Lemma analysis_page_fallback_reports_completion_witness :
  ∃ t, AppAnalysis.show_image_analysis ext fext false
         (Some {| App.name := "photo.jpg"; App.data := soft_file |}) true
         empty_world =
       (Ok tt, World (fs empty_world) (StSuccess "Analysis completed!" :: t)).
Proof.
  apply (analysis_page_fallback_reports_completion ext fext
           {| App.name := "photo.jpg"; App.data := soft_file |}
           (PilImage (8, 4)%Z (Ok tt) (Ok tt))); reflexivity.
Defined.

(** The sample decoder refuses a header of no row, an empty image and an
    image above the pixel limit, as Pillow does. *)
Lemma PIL_open_refusals :
  PIL_open [Byte.x50; Byte.x00; Byte.x03; Byte.x00; Byte.x00] =
    Raise (Exn LibraryError "cannot identify image file")
  ∧ PIL_open [Byte.x50; Byte.x00; Byte.x00; Byte.x00; Byte.x04] =
    Raise (Exn LibraryError "cannot identify image file")
  ∧ PIL_open [Byte.x50; Byte.xff; Byte.xff; Byte.xff; Byte.xff] =
    Raise (Exn LibraryError
      "Image size (4294836225 pixels) exceeds limit of 178956970 pixels, could be decompression bomb DOS attack.").
Proof. split_and!; by vm_compute. Qed.

End MoreRuns.
